(** * Equity screener: integrity report, symbol resolution and formatters

    A shallow embedding of the reporting code of the Streamlit application
    (packages/streamlit-app/src/streamlit_app) and the properties its
    specification states about it.

    Conventions of the embedding:
    - Python [int] is [Z]; [len] and generator counts are injected from [nat].
    - Python [float] has two models.  Where a property does not depend on
      rounding (counts, ranges of percentages, shapes), a float is an exact
      rational ([Q]).  Where rounding, NaN or the infinities decide the
      outcome (sort keys, tier bounds, conversions that overflow), a float
      is an IEEE 754 binary64 number ([Float64.float]) and the code is
      embedded over it, in the modules whose name ends in [64].
    - [decimal.Decimal] is a finite decimal (coefficient and exponent) with
      the arithmetic of the default context: 28 significant digits, rounding
      half to even.  NaN, infinities and the exponent limits are not part of
      the model.
    - Python [str] is the UTF-8 encoding of the text, as a [string] of
      bytes.
    - A function that can raise returns a [pyresult]. *)

From Stdlib Require Import ZArith QArith Qpower List String Ascii Bool Lia.
From Stdlib Require Import Permutation Sorted Lqa SpecFloat.
Import ListNotations.

Local Open Scope string_scope.
Local Open Scope list_scope.
Local Open Scope Z_scope.

(** ** Python runtime *)

Module Py.

(** Exceptions the modelled code can meet. *)
Inductive exn : Type :=
  | ValueError
  | TypeError
  | IndexError
  | KeyError
  | AttributeError
  | StatisticsError
  | JSONDecodeError
  | HTTPStatusError
  | TransportError
  | OverflowError
  | ZeroDivisionError.

Inductive pyresult (A : Type) : Type :=
  | Ok (a : A)
  | Raise (e : exn).

Arguments Ok {A} a.
Arguments Raise {A} e.

Definition bind {A B : Type} (m : pyresult A) (k : A -> pyresult B) : pyresult B :=
  match m with
  | Ok a => k a
  | Raise e => Raise e
  end.

Definition exn_eqb (a b : exn) : bool :=
  match a, b with
  | ValueError, ValueError
  | TypeError, TypeError
  | IndexError, IndexError
  | KeyError, KeyError
  | AttributeError, AttributeError
  | StatisticsError, StatisticsError
  | JSONDecodeError, JSONDecodeError
  | HTTPStatusError, HTTPStatusError
  | TransportError, TransportError
  | OverflowError, OverflowError
  | ZeroDivisionError, ZeroDivisionError => true
  | _, _ => false
  end.

(** [try: body / except (e1, e2, ...): handler]. *)
Definition try_except {A : Type} (body : pyresult A) (caught : list exn)
    (handler : pyresult A) : pyresult A :=
  match body with
  | Ok a => Ok a
  | Raise e => if existsb (exn_eqb e) caught then handler else Raise e
  end.

(** [try: body / except Exception: handler]: every exception of the model
    derives from [Exception]. *)
Definition try_except_exception {A : Type} (body : pyresult A)
    (handler : pyresult A) : pyresult A :=
  match body with
  | Ok a => Ok a
  | Raise _ => handler
  end.

(** [sum(xs)] over integers: a left fold starting from 0. *)
Definition sum (xs : list Z) : Z := fold_left Z.add xs 0.

(** [sum(xs)] over floats. *)
Definition fsum (xs : list Q) : Q := fold_left Qplus xs (0 # 1)%Q.

(** [sum(1 for x in xs if p(x))]. *)
Definition count_if {A : Type} (p : A -> bool) (xs : list A) : Z :=
  sum (map (fun _ => 1) (filter p xs)).

(** [len(xs)]. *)
Definition len {A : Type} (xs : list A) : Z := Z.of_nat (List.length xs).

(** [a / b] on integers (true division); the caller guards [b <> 0]. *)
Definition truediv (a b : Z) : Q := (inject_Z a / inject_Z b)%Q.

(** Insertion of [x] in front of the first element it is not above. *)
Fixpoint insert_by {A : Type} (le : A -> A -> bool) (x : A) (l : list A)
    : list A :=
  match l with
  | [] => [x]
  | y :: l' => if le x y then x :: l else y :: insert_by le x l'
  end.

(** [sorted(xs, key=key)]: the stable ascending sort. *)
Definition sorted {A : Type} (key : A -> Q) (xs : list A) : list A :=
  fold_right (insert_by (fun a b => Qle_bool (key a) (key b))) [] xs.

(** [sorted(xs, key=key, reverse=True)]: descending, and still stable. *)
Definition sorted_reverse {A : Type} (key : A -> Q) (xs : list A) : list A :=
  fold_right (insert_by (fun a b => Qle_bool (key b) (key a))) [] xs.

(** [enumerate(xs)]. *)
Definition enumerate {A : Type} (xs : list A) : list (nat * A) :=
  combine (seq 0 (List.length xs)) xs.

(** [xs[i]], which raises [IndexError] out of range. *)
Definition getitem {A : Type} (xs : list A) (i : nat) : pyresult A :=
  match nth_error xs i with
  | Some x => Ok x
  | None => Raise IndexError
  end.

(** [[f(x) for x in xs]] where [f] can raise: the first exception wins. *)
Fixpoint traverse {A B : Type} (f : A -> pyresult B) (xs : list A)
    : pyresult (list B) :=
  match xs with
  | [] => Ok []
  | x :: xs' => bind (f x) (fun y => bind (traverse f xs') (fun ys => Ok (y :: ys)))
  end.

(** [statistics.median(data)]. *)
Definition median (data : list Q) : pyresult Q :=
  let data := sorted (fun x => x) data in
  let n := List.length data in
  if Nat.eqb n 0 then Raise StatisticsError
  else if Nat.eqb (Nat.modulo n 2) 1 then getitem data (Nat.div n 2)
  else
    let i := Nat.div n 2 in
    bind (getitem data (i - 1)) (fun a =>
    bind (getitem data i) (fun b => Ok ((a + b) / (2 # 1))%Q)).

(** [statistics.mean(data)]. *)
Definition mean (data : list Q) : pyresult Q :=
  let n := List.length data in
  if Nat.eqb n 0 then Raise StatisticsError
  else Ok (fsum data / inject_Z (Z.of_nat n))%Q.

(** [sep.join(parts)]. *)
Fixpoint join (sep : string) (parts : list string) : string :=
  match parts with
  | [] => ""
  | p :: rest =>
      match rest with
      | [] => p
      | _ => String.append p (String.append sep (join sep rest))
      end
  end.

(** The elements of [{x for x in xs}], compared by [eqb]: one
    representative of each, here in order of first occurrence ([len] of the
    set is the length of this list). *)
Definition distinct {A : Type} (eqb : A -> A -> bool) (xs : list A) : list A :=
  fold_left (fun seen x => if existsb (eqb x) seen then seen else seen ++ [x])
            xs [].

(** [a < b] on floats. *)
Definition flt (a b : Q) : bool := negb (Qle_bool b a).

(** [min(a, b)] and [max(a, b)] on floats: the first argument wins a tie. *)
Definition fmin (a b : Q) : Q := if flt b a then b else a.
Definition fmax (a b : Q) : Q := if flt a b then b else a.

End Py.

(** ** decimal.Decimal *)

Module PyDecimal.

(** A finite decimal: [coefficient * 10 ^ exponent]. *)
Record Decimal : Type := mkDecimal { coefficient : Z; exponent : Z }.

Definition prec : Z := 28.

(** Number of decimal digits of a non-negative integer (1 for 0). *)
Fixpoint digits_fuel (fuel : nat) (n : Z) : Z :=
  match fuel with
  | O => 1
  | S fuel' => if n <? 10 then 1 else 1 + digits_fuel fuel' (n / 10)
  end.

Definition digits (n : Z) : Z := digits_fuel (S (Z.to_nat (Z.log2 n))) n.

(** The context rounding applied to every arithmetic result: keep [prec]
    significant digits, rounding half to even. *)
Definition fix_ (d : Decimal) : Decimal :=
  let c := Z.abs (coefficient d) in
  let n := digits c in
  if n <=? prec then d
  else
    let shift := n - prec in
    let p := 10 ^ shift in
    let q := c / p in
    let r := c mod p in
    let half := 5 * 10 ^ (shift - 1) in
    let up := (half <? r) || ((r =? half) && Z.odd q) in
    let q' := if up then q + 1 else q in
    let '(q'', e') := if q' =? 10 ^ prec
                      then (10 ^ (prec - 1), exponent d + shift + 1)
                      else (q', exponent d + shift) in
    mkDecimal (Z.sgn (coefficient d) * q'') e'.

(** Both coefficients brought to the smaller exponent. *)
Definition align (a b : Decimal) : Z * Z * Z :=
  let e := Z.min (exponent a) (exponent b) in
  (coefficient a * 10 ^ (exponent a - e),
   coefficient b * 10 ^ (exponent b - e), e).

Definition add (a b : Decimal) : Decimal :=
  let '(ca, cb, e) := align a b in fix_ (mkDecimal (ca + cb) e).

Definition mul (a b : Decimal) : Decimal :=
  fix_ (mkDecimal (coefficient a * coefficient b) (exponent a + exponent b)).

(** [abs(a)] rounds to the context like any other operation. *)
Definition abs (a : Decimal) : Decimal :=
  fix_ (mkDecimal (Z.abs (coefficient a)) (exponent a)).

(** Comparisons are exact. *)
Definition compare (a b : Decimal) : comparison :=
  let '(ca, cb, _) := align a b in Z.compare ca cb.

Definition lt (a b : Decimal) : bool :=
  match compare a b with Lt => true | _ => false end.

Definition gt (a b : Decimal) : bool := lt b a.

(** An [int] operand of a mixed comparison is converted exactly. *)
Definition of_int (n : Z) : Decimal := mkDecimal n 0.

(** [float(d)]. *)
Definition to_float (d : Decimal) : Q :=
  (inject_Z (coefficient d) * Qpower (10 # 1) (exponent d))%Q.

End PyDecimal.

Export PyDecimal(Decimal, mkDecimal).

(** ** Python floats as IEEE 754 binary64 numbers *)

Module Float64.

Import Py.

Definition prec : Z := 53.
Definition emax : Z := 1024.

(** A float: a zero or an infinity with its sign, NaN, or the number
    [(-1)^s * m * 2^e]. *)
Definition float : Type := spec_float.

Definition zero : float := S754_zero false.
Definition inf : float := S754_infinity false.
Definition nan : float := S754_nan.

(** The float nearest to [(-1)^s * (m + l) * 2^e], ties to even, where the
    location [l] tells how the discarded part compares with one half. *)
Definition round (s : bool) (m e : Z) (l : location) : float :=
  binary_round_aux prec emax s m e l.

(** The float nearest to an integer. *)
Definition of_Z (n : Z) : float := binary_normalize prec emax n 0 false.

(** [float(n)] on an int, and the conversion of an int operand of a float
    operation: [OverflowError] when the int is beyond the floats. *)
Definition of_int (n : Z) : pyresult float :=
  match of_Z n with
  | S754_infinity _ => Raise OverflowError
  | x => Ok x
  end.

Definition is_zero (x : float) : bool :=
  match x with S754_zero _ => true | _ => false end.

Definition is_nan (x : float) : bool :=
  match x with S754_nan => true | _ => false end.

(** [math.isfinite(x)]. *)
Definition is_finite (x : float) : bool :=
  match x with S754_zero _ | S754_finite _ _ _ => true | _ => false end.

(** [a + b], [a - b] and [a * b] on floats: they overflow to an infinity
    and never raise. *)
Definition add (a b : float) : float := SFadd prec emax a b.
Definition sub (a b : float) : float := SFsub prec emax a b.
Definition mul (a b : float) : float := SFmul prec emax a b.

(** [a / b] on floats. *)
Definition div (a b : float) : pyresult float :=
  if is_zero b then Raise ZeroDivisionError else Ok (SFdiv prec emax a b).

(** [a / b] on ints: the float nearest to the exact quotient. *)
Definition truediv (a b : Z) : pyresult float :=
  if b =? 0 then Raise ZeroDivisionError
  else if a =? 0 then Ok (S754_zero (b <? 0))
  else
    let '(q, e, l) := SFdiv_core_binary prec emax (Z.abs a) 0 (Z.abs b) 0 in
    match round (xorb (a <? 0) (b <? 0)) q e l with
    | S754_infinity _ => Raise OverflowError
    | x => Ok x
    end.

(** [a * n] and [a / n] with an int on the right: the int is converted
    first. *)
Definition mul_int (a : float) (n : Z) : pyresult float :=
  bind (of_int n) (fun b => Ok (mul a b)).

Definition div_int (a : float) (n : Z) : pyresult float :=
  bind (of_int n) (fun b => div a b).

(** [abs(x)]. *)
Definition abs (x : float) : float := SFabs x.

(** [a < b], [a <= b] and [a == b]: false as soon as an operand is NaN. *)
Definition lt (a b : float) : bool := SFltb a b.
Definition le (a b : float) : bool := SFleb a b.
Definition eq (a b : float) : bool := SFeqb a b.

(** [min(a, b)] and [max(a, b)]: the second argument is returned only when
    it compares below (above) the first. *)
Definition fmin (a b : float) : float := if lt b a then b else a.
Definition fmax (a b : float) : float := if lt a b then b else a.

(** The two algorithms of the builtin [sum] on floats: CPython up to 3.11
    adds from left to right; from 3.12 on it also carries a compensation
    term (Neumaier's variant of Kahan's summation), added at the end. *)
Inductive summation : Type :=
  | LeftToRight
  | Compensated.

(** One step of the compensated sum: the running total and the
    compensation. *)
Definition cs_add (total : float * float) (x : float) : float * float :=
  let '(hi, lo) := total in
  let t := add hi x in
  if le (abs x) (abs hi)
  then (t, add lo (add (sub hi t) x))
  else (t, add lo (add (sub x t) hi)).

(** The compensation is added when it is neither zero nor infinite nor
    NaN. *)
Definition cs_to_double (total : float * float) : float :=
  let '(hi, lo) := total in
  if negb (is_zero lo) && is_finite lo then add hi lo else hi.

(** [sum(xs)] over floats.  The start value is the int [0]: the first float
    is added to it as to [0.0]. *)
Definition sum (algorithm : summation) (xs : list float) : float :=
  match algorithm with
  | LeftToRight => fold_left add xs zero
  | Compensated =>
      match xs with
      | [] => zero
      | x :: rest => cs_to_double (fold_left cs_add rest (add zero x, zero))
      end
  end.

(** [sorted(xs, key=key)] on float keys.  The sort compares with [<] only
    and is stable: an element goes in front of the first one that is not
    below it.  (On keys among which a NaN occurs the outcome of the builtin
    depends on its merge strategy; the modelled code sorts no NaN.) *)
Definition sorted {A : Type} (key : A -> float) (xs : list A) : list A :=
  fold_right (insert_by (fun a b => negb (lt (key b) (key a)))) [] xs.

(** [sorted(xs, key=key, reverse=True)]: descending, and still stable. *)
Definition sorted_reverse {A : Type} (key : A -> float) (xs : list A)
    : list A :=
  fold_right (insert_by (fun a b => negb (lt (key a) (key b)))) [] xs.

(** [float(d)] on a [Decimal]: the float nearest to the decimal, an
    infinity beyond the floats, a zero below them. *)
Definition of_decimal (d : Decimal) : float :=
  let c := PyDecimal.coefficient d in
  let e := PyDecimal.exponent d in
  if c =? 0 then zero
  else if 0 <=? e then binary_normalize prec emax (c * 10 ^ e) 0 false
  else
    let '(q, e', l) :=
      SFdiv_core_binary prec emax (Z.abs c) 0 (10 ^ (- e)) 0 in
    round (c <? 0) q e' l.

End Float64.

(** ** The canonical equity record *)

Module EquityAggregator.

(** Modelled from the spec: the class [CanonicalEquity] of the package
    [equity_aggregator], which the application imports and which is not part
    of this repository.  The record has an identity group (name, symbol and
    five identifier codes) and a financials group of 31 fields, each field
    independently nullable.  The fields the checks do arithmetic on are
    [Decimal]; classifications are strings; [mics] is a list of strings. *)
Record EquityIdentity : Type := {
  name : option string;
  symbol : option string;
  share_class_figi : option string;
  isin : option string;
  cusip : option string;
  cik : option string;
  lei : option string;
}.

Record EquityFinancials : Type := {
  mics : option (list string);
  currency : option string;
  last_price : option Decimal;
  market_cap : option Decimal;
  fifty_two_week_min : option Decimal;
  fifty_two_week_max : option Decimal;
  dividend_yield : option Decimal;
  market_volume : option Decimal;
  held_insiders : option Decimal;
  held_institutions : option Decimal;
  short_interest : option Decimal;
  share_float : option Decimal;
  shares_outstanding : option Decimal;
  revenue_per_share : option Decimal;
  profit_margin : option Decimal;
  gross_margin : option Decimal;
  operating_margin : option Decimal;
  free_cash_flow : option Decimal;
  operating_cash_flow : option Decimal;
  return_on_equity : option Decimal;
  return_on_assets : option Decimal;
  performance_1_year : option Decimal;
  total_debt : option Decimal;
  revenue : option Decimal;
  ebitda : option Decimal;
  trailing_pe : option Decimal;
  price_to_book : option Decimal;
  trailing_eps : option Decimal;
  analyst_rating : option string;
  industry : option string;
  sector : option string;
}.

Record CanonicalEquity : Type := {
  identity : EquityIdentity;
  financials : EquityFinancials;
  snapshot_date : option string;
}.

(** A Python object held by an attribute. *)
Inductive pyobj : Type :=
  | PyStr (s : string)
  | PyDec (d : Decimal)
  | PyList (l : list string).

Definition str_attr {R : Type} (p : R -> option string) (r : R) : option pyobj :=
  option_map PyStr (p r).
Definition dec_attr {R : Type} (p : R -> option Decimal) (r : R) : option pyobj :=
  option_map PyDec (p r).
Definition list_attr {R : Type} (p : R -> option (list string)) (r : R)
    : option pyobj :=
  option_map PyList (p r).

(** The attributes of each group, by name. *)
Definition identity_attrs : list (string * (EquityIdentity -> option pyobj)) :=
  [ ("name", str_attr name);
    ("symbol", str_attr symbol);
    ("share_class_figi", str_attr share_class_figi);
    ("isin", str_attr isin);
    ("cusip", str_attr cusip);
    ("cik", str_attr cik);
    ("lei", str_attr lei) ].

Definition financials_attrs : list (string * (EquityFinancials -> option pyobj)) :=
  [ ("mics", list_attr mics);
    ("currency", str_attr currency);
    ("last_price", dec_attr last_price);
    ("market_cap", dec_attr market_cap);
    ("fifty_two_week_min", dec_attr fifty_two_week_min);
    ("fifty_two_week_max", dec_attr fifty_two_week_max);
    ("dividend_yield", dec_attr dividend_yield);
    ("market_volume", dec_attr market_volume);
    ("held_insiders", dec_attr held_insiders);
    ("held_institutions", dec_attr held_institutions);
    ("short_interest", dec_attr short_interest);
    ("share_float", dec_attr share_float);
    ("shares_outstanding", dec_attr shares_outstanding);
    ("revenue_per_share", dec_attr revenue_per_share);
    ("profit_margin", dec_attr profit_margin);
    ("gross_margin", dec_attr gross_margin);
    ("operating_margin", dec_attr operating_margin);
    ("free_cash_flow", dec_attr free_cash_flow);
    ("operating_cash_flow", dec_attr operating_cash_flow);
    ("return_on_equity", dec_attr return_on_equity);
    ("return_on_assets", dec_attr return_on_assets);
    ("performance_1_year", dec_attr performance_1_year);
    ("total_debt", dec_attr total_debt);
    ("revenue", dec_attr revenue);
    ("ebitda", dec_attr ebitda);
    ("trailing_pe", dec_attr trailing_pe);
    ("price_to_book", dec_attr price_to_book);
    ("trailing_eps", dec_attr trailing_eps);
    ("analyst_rating", str_attr analyst_rating);
    ("industry", str_attr industry);
    ("sector", str_attr sector) ].

(** [getattr(obj, attr, None)] on a group: [None] for an unknown name and
    for a field that holds [None].  The code looks up field names only; the
    other attributes a Python object has (its methods) are not part of the
    model. *)
Fixpoint getattr_or_none {R : Type} (attrs : list (string * (R -> option pyobj)))
    (r : R) (attr : string) : option pyobj :=
  match attrs with
  | [] => None
  | (n, p) :: rest => if String.eqb n attr then p r
                      else getattr_or_none rest r attr
  end.

(** [getattr(getattr(eq, group, None), attr, None)]. *)
Definition getattr_group (eq : CanonicalEquity) (group attr : string)
    : option pyobj :=
  if String.eqb group "identity"
  then getattr_or_none identity_attrs (identity eq) attr
  else if String.eqb group "financials"
  then getattr_or_none financials_attrs (financials eq) attr
  else None.

Definition is_not_none {A : Type} (o : option A) : bool :=
  match o with Some _ => true | None => false end.

(** A financials group that sets the fields the range checks read and
    leaves every other field empty; used to write concrete records. *)
Definition priced_financials
    (price cap lo hi insiders institutions roe roa : option Decimal)
    (sector_name : option string) : EquityFinancials :=
  {| mics := None; currency := None;
     last_price := price; market_cap := cap;
     fifty_two_week_min := lo; fifty_two_week_max := hi;
     dividend_yield := None; market_volume := None;
     held_insiders := insiders; held_institutions := institutions;
     short_interest := None; share_float := None; shares_outstanding := None;
     revenue_per_share := None; profit_margin := None; gross_margin := None;
     operating_margin := None; free_cash_flow := None;
     operating_cash_flow := None;
     return_on_equity := roe; return_on_assets := roa;
     performance_1_year := None; total_debt := None; revenue := None;
     ebitda := None; trailing_pe := None; price_to_book := None;
     trailing_eps := None; analyst_rating := None; industry := None;
     sector := sector_name |}.

Definition no_identity : EquityIdentity :=
  Build_EquityIdentity None None None None None None None.

Definition equity_of (f : EquityFinancials) : CanonicalEquity :=
  {| identity := no_identity; financials := f; snapshot_date := None |}.

End EquityAggregator.

Import EquityAggregator.

(** ** reports/models.py *)

Module Models.

Record FieldCoverage : Type := {
  label : string;
  count : Z;
  total : Z;
}.

Record ConsistencyFinding : Type := {
  description : string;
  finding_count : Z;
  finding_total : Z;
}.

Record MarketCapDistribution : Type := {
  mc_count : Z;
  mc_median : Q;
  mc_mean : Q;
  mc_values : list Q;
}.

Record CompletenessDistribution : Type := {
  cd_count : Z;
  cd_median : Q;
  cd_mean : Q;
  cd_values : list Z;
}.

Record SectorFieldCoverage : Type := {
  sectors : list string;
  fields : list string;
  percentages : list (list Q);
}.

Record CoverageReport : Type := {
  total_equities : Z;
  report_snapshot_date : option string;
  total_snapshots : Z;
  distinct_sectors : Z;
  distinct_industries : Z;
  identity_coverage : list FieldCoverage;
  financial_coverage : list FieldCoverage;
}.

End Models.

Import Models.

(** ** reports/fields.py *)

Module Fields.

Definition identity_fields : list (string * string) :=
  [ ("name", "Name");
    ("symbol", "Symbol");
    ("share_class_figi", "FIGI");
    ("isin", "ISIN");
    ("cusip", "CUSIP");
    ("cik", "CIK");
    ("lei", "LEI") ].

Definition financial_fields : list (string * string) :=
  [ ("mics", "MICs");
    ("currency", "Currency");
    ("last_price", "Last Price");
    ("market_cap", "Market Cap");
    ("fifty_two_week_min", "52W Min");
    ("fifty_two_week_max", "52W Max");
    ("dividend_yield", "Dividend Yield");
    ("market_volume", "Market Volume");
    ("held_insiders", "Held Insiders");
    ("held_institutions", "Held Institutions");
    ("short_interest", "Short Interest");
    ("share_float", "Share Float");
    ("shares_outstanding", "Shares Outstanding");
    ("revenue_per_share", "Revenue/Share");
    ("profit_margin", "Profit Margin");
    ("gross_margin", "Gross Margin");
    ("operating_margin", "Operating Margin");
    ("free_cash_flow", "Free Cash Flow");
    ("operating_cash_flow", "Operating Cash Flow");
    ("return_on_equity", "ROE");
    ("return_on_assets", "ROA");
    ("performance_1_year", "1Y Performance");
    ("total_debt", "Total Debt");
    ("revenue", "Revenue");
    ("ebitda", "EBITDA");
    ("trailing_pe", "Trailing P/E");
    ("price_to_book", "Price/Book");
    ("trailing_eps", "Trailing EPS");
    ("analyst_rating", "Analyst Rating");
    ("industry", "Industry");
    ("sector", "Sector") ].

Definition excluded : list string := ["industry"; "sector"; "currency"].

Definition heatmap_fields : list (string * string) :=
  filter (fun '(attr, _) => negb (existsb (String.eqb attr) excluded))
    financial_fields.

Definition has_field (equity : CanonicalEquity) (attr : string) : bool :=
  is_not_none (getattr_or_none financials_attrs (financials equity) attr).

End Fields.

Import Fields.

(** ** reports/checks.py *)

Module Checks.

Definition _finding (description : string) (equities : list CanonicalEquity)
    (total : Z) (predicate : CanonicalEquity -> bool) : ConsistencyFinding :=
  let count := Py.count_if predicate equities in
  {| description := description; finding_count := count; finding_total := total |}.

Definition _profit_exceeds_gross (equity : CanonicalEquity) : bool :=
  let profit := profit_margin (financials equity) in
  let gross := gross_margin (financials equity) in
  match profit, gross with
  | Some p, Some g => PyDecimal.gt p g
  | _, _ => false
  end.

Definition _operating_exceeds_gross (equity : CanonicalEquity) : bool :=
  let operating := operating_margin (financials equity) in
  let gross := gross_margin (financials equity) in
  match operating, gross with
  | Some o, Some g => PyDecimal.gt o g
  | _, _ => false
  end.

Definition _has_extreme_pe (equity : CanonicalEquity) : bool :=
  let pe_threshold := 1000 in
  let pe := trailing_pe (financials equity) in
  match pe with
  | Some v => PyDecimal.gt (PyDecimal.abs v) (PyDecimal.of_int pe_threshold)
  | None => false
  end.

Definition _has_inverted_range (equity : CanonicalEquity) : bool :=
  let min_val := fifty_two_week_min (financials equity) in
  let max_val := fifty_two_week_max (financials equity) in
  match min_val, max_val with
  | Some lo, Some hi => PyDecimal.gt lo hi
  | _, _ => false
  end.

(** [Decimal("1.05")]. *)
Definition d1_05 : Decimal := mkDecimal 105 (-2).

Definition _price_outside_range (equity : CanonicalEquity) : bool :=
  let price := last_price (financials equity) in
  let min_val := fifty_two_week_min (financials equity) in
  let max_val := fifty_two_week_max (financials equity) in
  match price, min_val, max_val with
  | Some p, Some lo, Some hi =>
      PyDecimal.lt p lo || PyDecimal.gt p (PyDecimal.mul hi d1_05)
  | _, _, _ => false
  end.

Definition _holdings_exceed (equity : CanonicalEquity) : bool :=
  let insiders := held_insiders (financials equity) in
  let institutions := held_institutions (financials equity) in
  match insiders, institutions with
  | Some a, Some b => PyDecimal.gt (PyDecimal.add a b) d1_05
  | _, _ => false
  end.

Definition _has_extreme_return (equity : CanonicalEquity) : bool :=
  let threshold := 5 in
  let roe := return_on_equity (financials equity) in
  let roa := return_on_assets (financials equity) in
  if match roe with
     | Some v => PyDecimal.gt (PyDecimal.abs v) (PyDecimal.of_int threshold)
     | None => false
     end
  then true
  else match roa with
       | Some v => PyDecimal.gt (PyDecimal.abs v) (PyDecimal.of_int threshold)
       | None => false
       end.

(** The lambda of "Extreme dividend yield (>100%)". *)
Definition extreme_dividend_yield (eq : CanonicalEquity) : bool :=
  match dividend_yield (financials eq) with
  | Some v => PyDecimal.gt v (PyDecimal.of_int 1)
  | None => false
  end.

Definition run_cross_field_checks (equities : list CanonicalEquity)
    : list ConsistencyFinding :=
  let total := Py.len equities in
  [ _finding "Price recorded without market cap" equities total
      (fun eq => has_field eq "last_price" && negb (has_field eq "market_cap"));
    _finding "Market cap recorded without price" equities total
      (fun eq => has_field eq "market_cap" && negb (has_field eq "last_price"));
    _finding "Price and market cap both missing" equities total
      (fun eq => negb (has_field eq "last_price")
                 && negb (has_field eq "market_cap"));
    _finding "Partial 52-week range" equities total
      (fun eq => negb (Bool.eqb (has_field eq "fifty_two_week_min")
                                (has_field eq "fifty_two_week_max"))) ].

Definition run_ratio_checks (equities : list CanonicalEquity)
    : list ConsistencyFinding :=
  let total := Py.len equities in
  [ _finding "Profit margin exceeds gross margin" equities total
      _profit_exceeds_gross;
    _finding "Operating margin exceeds gross margin" equities total
      _operating_exceeds_gross;
    _finding "Trailing P/E without EPS" equities total
      (fun eq => has_field eq "trailing_pe" && negb (has_field eq "trailing_eps"));
    _finding "Revenue/share without revenue" equities total
      (fun eq => has_field eq "revenue_per_share" && negb (has_field eq "revenue"));
    _finding "Price/book without price" equities total
      (fun eq => has_field eq "price_to_book" && negb (has_field eq "last_price")) ].

Definition run_plausibility_checks (equities : list CanonicalEquity)
    : list ConsistencyFinding :=
  let total := Py.len equities in
  [ _finding "52-week min exceeds max" equities total _has_inverted_range;
    _finding "Price outside 52-week range" equities total _price_outside_range;
    _finding "Extreme dividend yield (>100%)" equities total
      extreme_dividend_yield;
    _finding "Extreme trailing P/E (±1000)" equities total _has_extreme_pe;
    _finding "Holdings exceed 100%" equities total _holdings_exceed;
    _finding "Extreme ROE or ROA (±500%)" equities total _has_extreme_return ].

End Checks.

Import Checks.

(** ** reports/data_provider.py

    Every [load_*] function takes the list that [_load_equities()] returns
    as its argument. *)

Module DataProvider.

Import Py.

Definition _extract_market_caps (equities : list CanonicalEquity) : list Q :=
  flat_map (fun eq =>
    match market_cap (financials eq) with
    | Some m => if PyDecimal.gt m (PyDecimal.of_int 0)
                then [PyDecimal.to_float m] else []
    | None => []
    end) equities.

Definition _count_populated (equities : list CanonicalEquity)
    (group attr : string) : Z :=
  count_if (fun eq => is_not_none (getattr_group eq group attr)) equities.

Definition _compute_coverage (equities : list CanonicalEquity) (group : string)
    (fields : list (string * string)) : list FieldCoverage :=
  let total := len equities in
  map (fun '(attr, label) =>
         {| label := label;
            count := _count_populated equities group attr;
            total := total |}) fields.

Definition _mean (values : list Q) : Q :=
  match values with
  | [] => 0%Q
  | _ => (fsum values / inject_Z (len values))%Q
  end.

(** [sum(row[c] for row in rows) / len(rows)]. *)
Definition column_mean (rows : list (list Q)) (c : nat) : pyresult Q :=
  bind (traverse (fun row => getitem row c) rows) (fun col =>
  Ok (fsum col / inject_Z (len rows))%Q).

Definition _rank_columns_by_coverage (rows : list (list Q))
    : pyresult (list nat) :=
  match rows with
  | [] => Ok []
  | row0 :: _ =>
      let num_cols := List.length row0 in
      bind (traverse (column_mean rows) (seq 0 num_cols)) (fun col_means =>
      Ok (map fst (sorted_reverse snd (enumerate col_means))))
  end.

Definition _count_equity_fields (equity : CanonicalEquity)
    (fields : list (string * string)) : Z :=
  count_if (fun '(attr, _) => has_field equity attr) fields.

Definition _compute_completeness_scores (equities : list CanonicalEquity)
    : list Z :=
  let fields := financial_fields in
  map (fun eq => _count_equity_fields eq fields) equities.

(** [grouped.setdefault(key, []).append(eq)] on an insertion-ordered dict. *)
Fixpoint setdefault_append {A : Type} (key : string) (x : A)
    (grouped : list (string * list A)) : list (string * list A) :=
  match grouped with
  | [] => [(key, [x])]
  | (k, l) :: rest =>
      if String.eqb k key then (k, l ++ [x]) :: rest
      else (k, l) :: setdefault_append key x rest
  end.

Definition _group_by_sector (equities : list CanonicalEquity)
    : list (string * list CanonicalEquity) :=
  fold_left (fun grouped eq =>
    match sector (financials eq) with
    | Some s => setdefault_append s eq grouped
    | None => grouped
    end) equities [].

Definition _field_coverage_pct (equities : list CanonicalEquity)
    (attr : string) (total : Z) : Q :=
  if total =? 0 then 0%Q
  else (truediv (count_if (fun eq => has_field eq attr) equities) total * 100)%Q.

Definition _sector_coverage_row (equities : list CanonicalEquity)
    (fields : list (string * string)) : list Q :=
  let total := len equities in
  map (fun '(attr, _) => _field_coverage_pct equities attr total) fields.

Definition load_market_cap_distribution (equities : list CanonicalEquity)
    : pyresult MarketCapDistribution :=
  let values := _extract_market_caps equities in
  bind (match values with [] => Ok 0%Q | _ => median values end) (fun med =>
  bind (match values with [] => Ok 0%Q | _ => mean values end) (fun avg =>
  Ok {| mc_count := len values; mc_median := med; mc_mean := avg;
        mc_values := values |})).

Definition load_completeness_distribution (equities : list CanonicalEquity)
    : pyresult CompletenessDistribution :=
  let scores := _compute_completeness_scores equities in
  bind (match scores with [] => Ok 0%Q | _ => median (map inject_Z scores) end)
    (fun med =>
  bind (match scores with [] => Ok 0%Q | _ => mean (map inject_Z scores) end)
    (fun avg =>
  Ok {| cd_count := len scores; cd_median := med; cd_mean := avg;
        cd_values := scores |})).

Definition load_sector_field_coverage (equities : list CanonicalEquity)
    : pyresult SectorFieldCoverage :=
  let grouped := _group_by_sector equities in
  let fields := heatmap_fields in
  let sector_rows :=
    map (fun '(s, group) => (s, _sector_coverage_row group fields)) grouped in
  let ranked := sorted (fun p => _mean (snd p)) sector_rows in
  bind (_rank_columns_by_coverage (map snd ranked)) (fun col_order =>
  bind (traverse (fun i => bind (getitem fields i) (fun f => Ok (snd f)))
          col_order) (fun labels =>
  bind (traverse (fun row => traverse (getitem row) col_order) (map snd ranked))
    (fun pcts =>
  Ok {| sectors := map fst ranked; fields := labels; percentages := pcts |}))).

Definition load_cross_field_consistency := run_cross_field_checks.
Definition load_financial_ratio_consistency := run_ratio_checks.
Definition load_value_plausibility := run_plausibility_checks.

Definition _count_total_snapshots (equities : list CanonicalEquity) : Z :=
  len (distinct String.eqb
         (flat_map (fun eq => match snapshot_date eq with
                              | Some d => [d]
                              | None => []
                              end) equities)).

(** Equality of two hashable attribute values as set elements: strings by
    content, decimals by value. *)
Definition pyobj_eqb (a b : pyobj) : bool :=
  match a, b with
  | PyStr s, PyStr t => String.eqb s t
  | PyDec d, PyDec e => match PyDecimal.compare d e with
                        | Eq => true
                        | _ => false
                        end
  | _, _ => false
  end.

(** Adding a value to a set hashes it; a list is unhashable. *)
Definition hashed (v : pyobj) : pyresult pyobj :=
  match v with
  | PyList _ => Raise TypeError
  | _ => Ok v
  end.

Definition _count_distinct (equities : list CanonicalEquity) (attr : string)
    : pyresult Z :=
  let values :=
    flat_map (fun eq =>
                match getattr_or_none financials_attrs (financials eq) attr with
                | Some v => [v]
                | None => []
                end) equities in
  bind (traverse hashed values) (fun elements =>
  Ok (len (distinct pyobj_eqb elements))).

Definition load_coverage_report (equities : list CanonicalEquity)
    : pyresult CoverageReport :=
  let snapshot_date :=
    match equities with
    | first :: _ => snapshot_date first
    | [] => None
    end in
  bind (_count_distinct equities "sector") (fun sectors =>
  bind (_count_distinct equities "industry") (fun industries =>
  Ok {| total_equities := len equities;
        report_snapshot_date := snapshot_date;
        total_snapshots := _count_total_snapshots equities;
        distinct_sectors := sectors;
        distinct_industries := industries;
        identity_coverage :=
          _compute_coverage equities "identity" identity_fields;
        financial_coverage :=
          _compute_coverage equities "financials" financial_fields |})).

End DataProvider.

(** ** reports/data_provider.py over binary64

    The functions whose floats are compared or can leave the finite range:
    the sector heatmap, ranked by means of percentages, and the market caps
    converted from [Decimal]. *)

Module DataProvider64.

Import Py.

Definition _extract_market_caps (equities : list CanonicalEquity)
    : list Float64.float :=
  flat_map (fun eq =>
    match market_cap (financials eq) with
    | Some m => if PyDecimal.gt m (PyDecimal.of_int 0)
                then [Float64.of_decimal m] else []
    | None => []
    end) equities.

Record SectorFieldCoverage : Type := {
  sectors : list string;
  fields : list string;
  percentages : list (list Float64.float);
}.

Definition _field_coverage_pct (equities : list CanonicalEquity)
    (attr : string) (total : Z) : pyresult Float64.float :=
  if total =? 0 then Ok Float64.zero
  else
    bind (Float64.truediv (count_if (fun eq => has_field eq attr) equities)
            total) (fun share =>
    Float64.mul_int share 100).

Definition _sector_coverage_row (equities : list CanonicalEquity)
    (fields : list (string * string)) : pyresult (list Float64.float) :=
  let total := len equities in
  traverse (fun '(attr, _) => _field_coverage_pct equities attr total) fields.

Section Summation.

(** The algorithm of the interpreter's [sum]. *)
Variable algorithm : Float64.summation.

Definition _mean (values : list Float64.float) : pyresult Float64.float :=
  match values with
  | [] => Ok Float64.zero
  | _ => Float64.div_int (Float64.sum algorithm values) (len values)
  end.

(** [sum(row[c] for row in rows) / len(rows)]. *)
Definition column_mean (rows : list (list Float64.float)) (c : nat)
    : pyresult Float64.float :=
  bind (traverse (fun row => getitem row c) rows) (fun col =>
  Float64.div_int (Float64.sum algorithm col) (len rows)).

Definition _rank_columns_by_coverage (rows : list (list Float64.float))
    : pyresult (list nat) :=
  match rows with
  | [] => Ok []
  | row0 :: _ =>
      let num_cols := List.length row0 in
      bind (traverse (column_mean rows) (seq 0 num_cols)) (fun col_means =>
      Ok (map fst (Float64.sorted_reverse snd (enumerate col_means))))
  end.

(** [sorted(items, key=lambda p: _mean(p[1]))]: the keys are computed
    first, one per item, then the items are sorted by them. *)
Definition sorted_by_mean (items : list (string * list Float64.float))
    : pyresult (list (string * list Float64.float)) :=
  bind (traverse (fun p => bind (_mean (snd p)) (fun key => Ok (key, p)))
          items) (fun keyed =>
  Ok (map snd (Float64.sorted fst keyed))).

Definition load_sector_field_coverage (equities : list CanonicalEquity)
    : pyresult SectorFieldCoverage :=
  let grouped := DataProvider._group_by_sector equities in
  let fields := heatmap_fields in
  bind (traverse (fun '(s, group) =>
                    bind (_sector_coverage_row group fields) (fun row =>
                    Ok (s, row))) grouped) (fun sector_rows =>
  bind (sorted_by_mean sector_rows) (fun ranked =>
  bind (_rank_columns_by_coverage (map snd ranked)) (fun col_order =>
  bind (traverse (fun i => bind (getitem fields i) (fun f => Ok (snd f)))
          col_order) (fun labels =>
  bind (traverse (fun row => traverse (getitem row) col_order) (map snd ranked))
    (fun pcts =>
  Ok {| sectors := map fst ranked; fields := labels; percentages := pcts |}))))).

End Summation.

End DataProvider64.

(** ** reports/renderers.py *)

Module Renderers.

(** The "Coverage" cell of [_build_coverage_dataframe]. *)
Definition coverage_pct (fc : FieldCoverage) : Q :=
  if total fc =? 0 then 0%Q
  else (Py.truediv (count fc) (total fc) * 100)%Q.

(** The "Affected" cell of [_build_consistency_dataframe]. *)
Definition affected_pct (f : ConsistencyFinding) : Q :=
  if finding_total f =? 0 then 0%Q
  else (Py.truediv (finding_count f) (finding_total f) * 100)%Q.

Definition _overall_coverage (coverage : list FieldCoverage) : Q :=
  let total_count := Py.sum (map count coverage) in
  let total_possible := Py.sum (map total coverage) in
  if total_possible =? 0 then 0%Q
  else (Py.truediv total_count total_possible * 100)%Q.

End Renderers.

(** ** analyses/equity_analysis/tradingview.py *)

Module TradingView.

Import Py.

Local Set Warnings "-register-all".

(** A decoded JSON document; an object keeps its members in order and its
    keys are distinct. *)
Inductive json : Type :=
  | JNull
  | JBool (b : bool)
  | JNum (q : Q)
  | JStr (s : string)
  | JArr (items : list json)
  | JObj (members : list (string * json)).

(** What [httpx.post] gives back: a transport failure (connection error,
    timeout) raised as an exception, or a response. *)
Record response : Type := {
  is_success : bool;       (* [raise_for_status()] passes *)
  body : option json;      (* [None]: the body does not decode as JSON *)
}.

Inductive post_outcome : Type :=
  | Failed
  | Responded (resp : response).

(** The scanner service as the resolver sees it: the answer to the n-th
    request (counted from 0) with a given body, and the bodies posted so
    far, oldest first. *)
Record world : Type := {
  respond : nat -> json -> post_outcome;
  sent : list json;
}.

(** [httpx.post("https://scanner.tradingview.com/global/scan", json=body,
    timeout=10)]. *)
Definition httpx_post (request : json) (w : world) : post_outcome * world :=
  (respond w (List.length (sent w)) request,
   {| respond := respond w; sent := sent w ++ [request] |}).

(** [d.get(key)] on a decoded object. *)
Fixpoint lookup (key : string) (members : list (string * json)) : option json :=
  match members with
  | [] => None
  | (k, v) :: rest => if String.eqb k key then Some v else lookup key rest
  end.

(** [obj.get(key, default)] on any decoded value: only a dict has [get]. *)
Definition get (obj : json) (key : string) (default : json) : pyresult json :=
  match obj with
  | JObj members =>
      match lookup key members with
      | Some v => Ok v
      | None => Ok default
      end
  | _ => Raise AttributeError
  end.

(** Truth value of a decoded value. *)
Definition truthy (v : json) : bool :=
  match v with
  | JNull => false
  | JBool b => b
  | JNum q => negb (Qeq_bool q 0)
  | JStr s => negb (String.eqb s "")
  | JArr items => match items with [] => false | _ => true end
  | JObj members => match members with [] => false | _ => true end
  end.

(** [rows[0]] on a truthy decoded value. *)
Definition first_item (rows : json) : pyresult json :=
  match rows with
  | JArr (x :: _) => Ok x
  | JArr [] => Raise IndexError
  | JStr (String c _) => Ok (JStr (String c ""))
  | JStr EmptyString => Raise IndexError
  | JObj _ => Raise KeyError
  | JNull | JBool _ | JNum _ => Raise TypeError
  end.

(** A decoded value as a Python result: JSON [null] is [None]. *)
Definition not_null (v : json) : option json :=
  match v with
  | JNull => None
  | _ => Some v
  end.

Definition _build_scan_request (field query operation : string)
    (markets : list string) : json :=
  JObj
    [ ("markets", JArr (map JStr markets));
      ("symbols", JObj [ ("query", JObj [("types", JArr [JStr "stock"])]);
                         ("tickers", JArr []) ]);
      ("options", JObj [("lang", JStr "en")]);
      ("filter", JArr [ JObj [ ("left", JStr field);
                               ("operation", JStr operation);
                               ("right", JStr query) ] ]);
      ("columns", JArr [JStr "name"; JStr "description"; JStr "volume"]);
      ("sort", JObj [("sortBy", JStr "volume"); ("sortOrder", JStr "desc")]);
      ("range", JArr [JNum 0; JNum 1]) ].

(** The body of the [try] block of [_try_scan], after the request is
    posted: [Ok None] stands for falling out of the block. *)
Definition read_top_result (outcome : post_outcome) : pyresult (option json) :=
  match outcome with
  | Failed => Raise TransportError
  | Responded resp =>
      if negb (is_success resp) then Raise HTTPStatusError
      else
        match body resp with
        | None => Raise JSONDecodeError
        | Some doc =>
            bind (get doc "data" (JArr [])) (fun rows =>
            if truthy rows
            then bind (first_item rows) (fun row =>
                 bind (get row "s" JNull) (fun s => Ok (not_null s)))
            else Ok None)
        end
  end.

Definition _try_scan (field query operation : string) (markets : list string)
    (w : world) : option json * world :=
  let request := _build_scan_request field query operation markets in
  let '(outcome, w') := httpx_post request w in
  match try_except_exception (read_top_result outcome) (Ok None) with
  | Ok result => (result, w')
  | Raise _ => (None, w')
  end.

Definition _mic_to_tv_market_map : list (string * string) :=
  [ ("XNYS", "america"); ("XNAS", "america"); ("XASE", "america");
    ("ARCX", "america"); ("BATS", "america"); ("IEXG", "america");
    ("XLON", "uk"); ("XETR", "germany"); ("XFRA", "germany");
    ("XPAR", "france"); ("XAMS", "netherlands"); ("XBRU", "belgium");
    ("XLIS", "portugal"); ("XMIL", "italy"); ("XMAD", "spain");
    ("XSWX", "switzerland"); ("XSTO", "sweden"); ("XCSE", "denmark");
    ("XOSL", "norway"); ("XHEL", "finland"); ("XWBO", "austria");
    ("XTKS", "japan"); ("XHKG", "hongkong"); ("XSHG", "china");
    ("XSHE", "china"); ("XKRX", "korea"); ("XTAI", "taiwan");
    ("XASX", "australia"); ("XNZE", "newzealand"); ("XSES", "singapore");
    ("XBOM", "india"); ("XNSE", "india"); ("XTSE", "canada");
    ("BVMF", "brazil"); ("XMEX", "mexico"); ("XJSE", "rsa") ].

Fixpoint mic_map_get (key : string) (table : list (string * string))
    : option string :=
  match table with
  | [] => None
  | (k, v) :: rest => if String.eqb k key then Some v else mic_map_get key rest
  end.

(** [s.split(",")]. *)
Fixpoint split (sep : ascii) (s : string) : list string :=
  match s with
  | EmptyString => [""]
  | String c rest =>
      let parts := split sep rest in
      if Ascii.eqb c sep then "" :: parts
      else match parts with
           | p :: ps => String c p :: ps
           | [] => [String c ""]
           end
  end.

(** White space as [str.strip()] understands it.  A string is the UTF-8
    encoding of the Python text, so a white-space character takes one, two
    or three bytes: the ASCII ones (U+0009 to U+000D, U+001C to U+0020);
    U+0085 and U+00A0; U+1680, U+2000 to U+200A, U+2028, U+2029, U+202F,
    U+205F and U+3000. *)
Definition is_space (c : ascii) : bool :=
  let n := nat_of_ascii c in
  (Nat.leb 9 n && Nat.leb n 13) || (Nat.leb 28 n && Nat.leb n 32).

Definition is_space2 (c d : ascii) : bool :=
  Nat.eqb (nat_of_ascii c) 194
  && (Nat.eqb (nat_of_ascii d) 133 || Nat.eqb (nat_of_ascii d) 160).

Definition is_space3 (c d e : ascii) : bool :=
  let c := nat_of_ascii c in
  let d := nat_of_ascii d in
  let e := nat_of_ascii e in
  (Nat.eqb c 225 && Nat.eqb d 154 && Nat.eqb e 128)
  || (Nat.eqb c 226 && Nat.eqb d 128
      && ((Nat.leb 128 e && Nat.leb e 138)
          || Nat.eqb e 168 || Nat.eqb e 169 || Nat.eqb e 175))
  || (Nat.eqb c 226 && Nat.eqb d 129 && Nat.eqb e 159)
  || (Nat.eqb c 227 && Nat.eqb d 128 && Nat.eqb e 128).

(** The string is one white-space character. *)
Definition is_space_text (s : string) : bool :=
  match s with
  | String c EmptyString => is_space c
  | String c (String d EmptyString) => is_space2 c d
  | String c (String d (String e EmptyString)) => is_space3 c d e
  | _ => false
  end.

Fixpoint lstrip (s : string) : string :=
  match s with
  | EmptyString => ""
  | String c rest =>
      if is_space c then lstrip rest
      else
        match rest with
        | EmptyString => s
        | String d rest2 =>
            if is_space2 c d then lstrip rest2
            else
              match rest2 with
              | EmptyString => s
              | String e rest3 => if is_space3 c d e then lstrip rest3 else s
              end
        end
  end.

Fixpoint rstrip (s : string) : string :=
  match s with
  | EmptyString => ""
  | String c rest =>
      let rest' := rstrip rest in
      if is_space_text (String c rest') then "" else String c rest'
  end.

Definition strip (s : string) : string := rstrip (lstrip s).

(** [list(dict.fromkeys(xs))]: first occurrences, in order. *)
Definition fromkeys (xs : list string) : list string :=
  fold_left (fun seen x => if existsb (String.eqb x) seen then seen
                           else seen ++ [x]) xs [].

Definition _mics_to_tv_markets (mics : option string) : list string :=
  match mics with
  | None => []
  | Some "" => []
  | Some m =>
      let mic_map := _mic_to_tv_market_map in
      let markets := map (fun mic => mic_map_get (strip mic) mic_map)
                         (split "," m) in
      fromkeys (flat_map (fun o => match o with
                                   | Some v => if String.eqb v "" then [] else [v]
                                   | None => []
                                   end) markets)
  end.

(** The [for] loop of [resolve_tv_symbol] over the remaining searches. *)
Fixpoint resolve_loop (searches : list (string * string * string))
    (markets : list string) (symbol : string) (w : world) : json * world :=
  match searches with
  | [] => (JStr symbol, w)
  | (field, query, operation) :: rest =>
      if String.eqb query "" then resolve_loop rest markets symbol w
      else
        let '(result, w') := _try_scan field query operation markets w in
        match result with
        | Some r => (r, w')
        | None => resolve_loop rest markets symbol w'
        end
  end.

(** The body of [resolve_tv_symbol], which the decorator wraps. *)
Definition resolve_tv_symbol_body (symbol equity_name : string)
    (mics : option string) (w : world) : json * world :=
  let markets := _mics_to_tv_markets mics in
  let searches :=
    [ ("name", symbol, "equal");
      ("description", equity_name, "match");
      ("name", symbol, "match") ] in
  resolve_loop searches markets symbol w.

(** [@st.cache_data(ttl=3600)]: the cache keeps the result of a call under
    the values of its arguments, with the time at which it expires. *)
Definition cache_key : Type := string * string * option string.

Record cache_entry : Type := {
  cached : json;
  expires : Q;
}.

Definition cache : Type := list (cache_key * cache_entry).

Definition key_eqb (a b : cache_key) : bool :=
  let '(symbol_a, name_a, mics_a) := a in
  let '(symbol_b, name_b, mics_b) := b in
  String.eqb symbol_a symbol_b && String.eqb name_a name_b
  && match mics_a, mics_b with
     | Some x, Some y => String.eqb x y
     | None, None => true
     | _, _ => false
     end.

Fixpoint cache_get (key : cache_key) (store : cache) : option cache_entry :=
  match store with
  | [] => None
  | (k, entry) :: rest => if key_eqb k key then Some entry
                          else cache_get key rest
  end.

Definition cache_set (key : cache_key) (entry : cache_entry) (store : cache)
    : cache :=
  (key, entry) :: filter (fun p => negb (key_eqb (fst p) key)) store.

Definition ttl : Q := 3600 # 1.

(** The decorated function: [now] is the reading of the clock, in seconds,
    at the call.  An entry that has not expired is returned without running
    the body; otherwise the body runs and its result is stored for [ttl]
    seconds. *)
Definition resolve_tv_symbol (symbol equity_name : string) (mics : option string)
    (now : Q) (store : cache) (w : world) : json * cache * world :=
  let key := (symbol, equity_name, mics) in
  let computed :=
    let '(result, w') := resolve_tv_symbol_body symbol equity_name mics w in
    (result,
     cache_set key {| cached := result; expires := (now + ttl)%Q |} store,
     w') in
  match cache_get key store with
  | Some entry =>
      if Qle_bool (expires entry) now then computed
      else (cached entry, store, w)
  | None => computed
  end.

End TradingView.

(** ** analyses/equity_analysis/formatters.py *)

Module Formatters.

Import Py.

Section TextRuntime.

(** The three built-in conversions between floats and text that the
    formatters apply. *)

(** [float(s)] on a string: [None] when the string is not a number
    ([ValueError]). *)
Variable float_of_str : string -> option Float64.float.
(** [format(x, spec)] for the specs [",.<d>f"] (grouping) and [".<d>f"]:
    [None] when the precision makes the spec invalid ([ValueError]). *)
Variable format_fixed : bool -> Z -> Float64.float -> option string.
(** [str(x)] on a float, and on an int that converts to a float. *)
Variable str_of_float : Float64.float -> string.
Variable str_of_int : Z -> string.

(** The argument type [float | str | None]; an int is accepted where a
    float is declared. *)
Inductive value : Type :=
  | VNone
  | VFloat (x : Float64.float)
  | VInt (n : Z)
  | VStr (s : string).

(** [float(value)]. *)
Definition float_ (v : value) : pyresult Float64.float :=
  match v with
  | VFloat x => Ok x
  | VInt n => Float64.of_int n
  | VStr s => match float_of_str s with
              | Some x => Ok x
              | None => Raise ValueError
              end
  | VNone => Raise TypeError
  end.

(** [str(value)]. *)
Definition str_ (v : value) : string :=
  match v with
  | VNone => "None"
  | VFloat x => str_of_float x
  | VInt n => str_of_int n
  | VStr s => s
  end.

(** [format(x, spec)] as a possibly raising call. *)
Definition format_ (grouping : bool) (decimals : Z) (x : Float64.float)
    : pyresult string :=
  match format_fixed grouping decimals x with
  | Some s => Ok s
  | None => Raise ValueError
  end.

Definition fmt_number (v : value) (decimals : Z) : pyresult string :=
  match v with
  | VNone => Ok "N/A"
  | _ =>
      try_except
        (bind (float_ v) (fun x => format_ true decimals x))
        [ValueError; TypeError]
        (Ok (str_ v))
  end.

Definition fmt_ratio (v : value) : pyresult string :=
  match v with
  | VNone => Ok "N/A"
  | _ =>
      try_except
        (bind (float_ v) (fun x =>
         bind (format_ false 1 x) (fun s => Ok (String.append s "x"))))
        [ValueError; TypeError]
        (Ok (str_ v))
  end.

End TextRuntime.

End Formatters.

(** ** reports/charts.py *)

Module Charts.

Import Py.

(** The market-cap tiers: label, lower bound, upper bound.  The bounds are
    floats ([50e6] and the like, each an integer a float holds exactly);
    the last one is [float("inf")]. *)
Definition thresholds : list (string * Float64.float * Float64.float) :=
  [ ("Nano (<$50M)", Float64.zero, Float64.of_Z 50000000);
    ("Micro ($50M-$300M)", Float64.of_Z 50000000, Float64.of_Z 300000000);
    ("Small ($300M-$2B)", Float64.of_Z 300000000, Float64.of_Z 2000000000);
    ("Mid ($2B-$10B)", Float64.of_Z 2000000000, Float64.of_Z 10000000000);
    ("Large ($10B-$200B)", Float64.of_Z 10000000000,
       Float64.of_Z 200000000000);
    ("Mega (>$200B)", Float64.of_Z 200000000000, Float64.inf) ].

(** [lo <= v < hi]. *)
Definition in_tier (lo hi v : Float64.float) : bool :=
  Float64.le lo v && Float64.lt v hi.

Definition _count_per_tier (values : list Float64.float)
    : list string * list Z :=
  let labels := map (fun t => fst (fst t)) thresholds in
  let counts :=
    map (fun '(_, lo, hi) => count_if (in_tier lo hi) values) thresholds in
  (labels, counts).

Definition _count_per_score (values : list Z) : list Z * list Z :=
  let scores := map Z.of_nat (seq 0 32) in
  let counts := map (fun s => count_if (fun v => v =? s) values) scores in
  (scores, counts).



Definition _heatmap_height (num_sectors : Z) : Z :=
  Z.max 400 (num_sectors * 35 + 150).

End Charts.

(** ** analyses/equity_analysis/analyst_ratings.py *)

Module AnalystRatings.

Import Py.

Record RatingResult : Type := { label : string; color : string }.

(** [s.lower()] on ASCII letters; other characters are left as they are. *)
Definition lower_char (c : ascii) : ascii :=
  let n := nat_of_ascii c in
  if Nat.leb 65 n && Nat.leb n 90 then ascii_of_nat (n + 32) else c.

Fixpoint lower (s : string) : string :=
  match s with
  | EmptyString => ""
  | String c rest => String (lower_char c) (lower rest)
  end.

(** [pattern in s]. *)
Fixpoint contains (pattern s : string) : bool :=
  String.prefix pattern s
  || match s with
     | EmptyString => false
     | String _ rest => contains pattern rest
     end.

Definition patterns : list (string * string * string) :=
  [ ("strong buy", "Strong Buy", "#15803d");
    ("buy", "Buy", "#16a34a");
    ("hold", "Hold", "#d97706");
    ("neutral", "Hold", "#d97706");
    ("strong sell", "Strong Sell", "#991b1b");
    ("sell", "Sell", "#dc2626");
    ("underperform", "Sell", "#dc2626") ].

(** The [for] loop over the remaining patterns. *)
Fixpoint match_patterns (remaining : list (string * string * string))
    (lowered value : string) : RatingResult :=
  match remaining with
  | [] => {| label := value; color := "#808495" |}
  | (pattern, l, c) :: rest =>
      if contains pattern lowered then {| label := l; color := c |}
      else match_patterns rest lowered value
  end.

Definition _match_string_rating (value : string) : RatingResult :=
  let lowered := lower (TradingView.strip value) in
  match_patterns patterns lowered value.

Definition numeric_thresholds : list (Q * string * string) :=
  [ (15 # 10, "Strong Buy", "#15803d");
    (25 # 10, "Buy", "#16a34a");
    (35 # 10, "Hold", "#d97706");
    (45 # 10, "Sell", "#dc2626") ]%Q.

Fixpoint match_thresholds (remaining : list (Q * string * string)) (value : Q)
    : RatingResult :=
  match remaining with
  | [] => {| label := "Strong Sell"; color := "#991b1b" |}
  | (threshold, l, c) :: rest =>
      if Qle_bool value threshold then {| label := l; color := c |}
      else match_thresholds rest value
  end.

Definition _match_numeric_rating (value : Q) : RatingResult :=
  match_thresholds numeric_thresholds value.

(** The argument type [str | float | None]. *)
Inductive rating : Type :=
  | RNone
  | RStr (s : string)
  | RNum (x : Q).

(** [float(value)] on a float returns it, so the handler of
    [(ValueError, TypeError)] is never entered. *)
Definition _coerce_numeric_rating (value : Q) : RatingResult :=
  _match_numeric_rating value.

Definition analyst_rating_label (value : rating) : RatingResult :=
  match value with
  | RNone => {| label := "N/A"; color := "#808495" |}
  | RStr s => _match_string_rating s
  | RNum x => _coerce_numeric_rating x
  end.

End AnalystRatings.

(** ** analyses/equity_analysis/renderers.py *)

Module AnalysisRenderers.

Import Py.

(** What [render_52w_range_and_profile] puts on the page: the profile
    alone, or the range bar (with the position of the price marker, in
    percent) beside the profile. *)
Inductive range_view : Type :=
  | ProfileOnly
  | RangeWithProfile (pct : Float64.float).

(** [max(0.0, min(1.0, (price - low) / (high - low))) * 100] in
    [_render_range_with_profile]. *)
Definition _render_range_with_profile (low high price : Float64.float)
    : pyresult range_view :=
  bind (Float64.div (Float64.sub price low) (Float64.sub high low)) (fun q =>
  bind (Float64.mul_int
          (Float64.fmax Float64.zero (Float64.fmin (Float64.of_Z 1) q)) 100)
    (fun pct =>
  Ok (RangeWithProfile pct))).

(** The function on the three cells it reads from the row: 52W Min, 52W Max
    and Last Price.  A cell holds [None] or a float; a value missing from
    the data frame the row comes from is the float NaN. *)
Definition render_52w_range_and_profile
    (low high price : option Float64.float) : pyresult range_view :=
  match low, high, price with
  | Some l, Some h, Some p =>
      if Float64.lt l h then _render_range_with_profile l h p
      else Ok ProfileOnly
  | _, _, _ => Ok ProfileOnly
  end.

End AnalysisRenderers.

(** ** dashboards/universe/columns.py *)

Module UniverseColumns.

Definition FIELD_MAPPING : list (string * string) :=
  [ ("Name", "identity.name");
    ("Symbol", "identity.symbol");
    ("Share Class FIGI", "identity.share_class_figi");
    ("ISIN", "identity.isin");
    ("CUSIP", "identity.cusip");
    ("CIK", "identity.cik");
    ("LEI", "identity.lei");
    ("MICs", "financials.mics");
    ("Currency", "financials.currency");
    ("Last Price", "financials.last_price");
    ("Market Cap", "financials.market_cap");
    ("52W Min", "financials.fifty_two_week_min");
    ("52W Max", "financials.fifty_two_week_max");
    ("Dividend Yield", "financials.dividend_yield");
    ("Market Volume", "financials.market_volume");
    ("Held Insiders", "financials.held_insiders");
    ("Held Institutions", "financials.held_institutions");
    ("Short Interest", "financials.short_interest");
    ("Share Float", "financials.share_float");
    ("Shares Outstanding", "financials.shares_outstanding");
    ("Revenue/Share", "financials.revenue_per_share");
    ("Profit Margin", "financials.profit_margin");
    ("Gross Margin", "financials.gross_margin");
    ("Operating Margin", "financials.operating_margin");
    ("Free Cash Flow", "financials.free_cash_flow");
    ("Operating Cash Flow", "financials.operating_cash_flow");
    ("ROE", "financials.return_on_equity");
    ("ROA", "financials.return_on_assets");
    ("1Y Performance", "financials.performance_1_year");
    ("Total Debt", "financials.total_debt");
    ("Revenue", "financials.revenue");
    ("EBITDA", "financials.ebitda");
    ("Trailing P/E", "financials.trailing_pe");
    ("Price/Book", "financials.price_to_book");
    ("Trailing EPS", "financials.trailing_eps");
    ("Analyst Rating", "financials.analyst_rating");
    ("Industry", "financials.industry");
    ("Sector", "financials.sector") ].

Definition DISPLAY_COLUMNS : list string := map fst FIELD_MAPPING.

End UniverseColumns.

(** ** dashboards/universe/equity_data_provider.py *)

Module UniverseDataProvider.

Import Py.

(** The objects an accessor path walks through: the equity, its two
    groups, and the values the fields hold. *)
Inductive pyval : Type :=
  | VEquity (e : CanonicalEquity)
  | VIdentity (i : EquityIdentity)
  | VFinancials (f : EquityFinancials)
  | VLeaf (o : pyobj).

(** [getattr(obj, attr, None)].  As for the groups, only fields are
    attributes in the model: a value held by a field has none. *)
Definition getattr_none (obj : pyval) (attr : string) : option pyval :=
  match obj with
  | VEquity e =>
      if String.eqb attr "identity" then Some (VIdentity (identity e))
      else if String.eqb attr "financials" then Some (VFinancials (financials e))
      else if String.eqb attr "snapshot_date"
      then option_map (fun d => VLeaf (PyStr d)) (snapshot_date e)
      else None
  | VIdentity i => option_map VLeaf (getattr_or_none identity_attrs i attr)
  | VFinancials f => option_map VLeaf (getattr_or_none financials_attrs f attr)
  | VLeaf _ => None
  end.

(** The [for] loop of [_resolve_accessor] over the remaining segments. *)
Fixpoint resolve_segments (segments : list string) (obj : pyval)
    : option pyval :=
  match segments with
  | [] => Some obj
  | attr :: rest =>
      match getattr_none obj attr with
      | None => None
      | Some o => resolve_segments rest o
      end
  end.

Definition _resolve_accessor (obj : pyval) (dot_path : string) : option pyval :=
  resolve_segments (TradingView.split "." dot_path) obj.

(** A cell of the grid row. *)
Inductive cell : Type :=
  | CFloat (x : Q)
  | CStr (s : string)
  | CList (l : list string)
  | CObject (v : pyval).

Definition _coerce_value (value : option pyval) : option cell :=
  match value with
  | None => None
  | Some (VLeaf (PyDec d)) => Some (CFloat (PyDecimal.to_float d))
  | Some (VLeaf (PyStr s)) => Some (CStr s)
  | Some (VLeaf (PyList l)) => Some (CList l)
  | Some v => Some (CObject v)
  end.

Definition _format_field (name : string) (value : option pyval) : option cell :=
  match value with
  | Some (VLeaf (PyList l)) =>
      if String.eqb name "MICs"
      then match l with
           | [] => None
           | _ => Some (CStr (join ", " l))
           end
      else _coerce_value value
  | _ => _coerce_value value
  end.

(** The row dict, in insertion order. *)
Definition _equity_to_row (equity : CanonicalEquity)
    : list (string * option cell) :=
  map (fun '(name, path) =>
         (name, _format_field name (_resolve_accessor (VEquity equity) path)))
      UniverseColumns.FIELD_MAPPING.

End UniverseDataProvider.

(** * Specification vocabulary

    The notions the properties below are stated with. *)

(** ** Coverage *)

(** A coverage statistic over [n] records: its count is within its total,
    and so is the percentage shown for it. *)
Definition coverage_within_total (n : Z) (fc : FieldCoverage) : Prop :=
  total fc = n /\ 0 <= count fc <= total fc /\
  (0 <= Renderers.coverage_pct fc <= 100)%Q.

(** The same for a finding. *)
Definition finding_within_total (n : Z) (f : ConsistencyFinding) : Prop :=
  finding_total f = n /\ 0 <= finding_count f <= finding_total f /\
  (0 <= Renderers.affected_pct f <= 100)%Q.

(** The sum of a list of integers, by structural recursion. *)
Definition total_of (xs : list Z) : Z := fold_right Z.add 0 xs.

(** The weighted average the specification describes: populated counts
    summed over the fields, divided by the totals summed over the fields. *)
Definition weighted_coverage (coverage : list FieldCoverage) : Q :=
  let populated := total_of (map count coverage) in
  let possible := total_of (map total coverage) in
  if possible =? 0 then 0%Q
  else (inject_Z populated / inject_Z possible * 100)%Q.

(** The arithmetic mean of the per-field percentages, which the overall
    figure is not. *)
Definition mean_of_percentages (coverage : list FieldCoverage) : Q :=
  DataProvider._mean (map Renderers.coverage_pct coverage).

(** How many records satisfy [p]. *)
Definition populated (p : CanonicalEquity -> bool)
    (equities : list CanonicalEquity) : Z :=
  Z.of_nat (List.length (filter p equities)).

(** The coverage entry of a field given by its label and its accessor. *)
Definition coverage_of {T : Type} (equities : list CanonicalEquity)
    (label : string) (field : CanonicalEquity -> option T) : FieldCoverage :=
  {| label := label;
     count := populated (fun eq => is_not_none (field eq)) equities;
     total := Z.of_nat (List.length equities) |}.

(** ** Checks *)

(** Decimal literals. *)
Definition dec (coefficient exponent : Z) : option Decimal :=
  Some (mkDecimal coefficient exponent).

(** A record with the given last price and 52-week bounds. *)
Definition priced (price lo hi : option Decimal) : CanonicalEquity :=
  equity_of (priced_financials price None lo hi None None None None None).

(** A record with the given insider and institution holdings. *)
Definition held (insiders institutions : option Decimal) : CanonicalEquity :=
  equity_of
    (priced_financials None None None None insiders institutions None None None).

(** A record with the given return on equity and return on assets. *)
Definition returning (roe roa : option Decimal) : CanonicalEquity :=
  equity_of (priced_financials None None None None None None roe roa None).

(** Whether a field of the financials group holds a value. *)
Definition present {T : Type} (field : EquityFinancials -> option T)
    (f : EquityFinancials) : bool :=
  is_not_none (field f).

(** Some operand of the list is [None] on the record. *)
Definition missing_operand (operands : list (EquityFinancials -> bool))
    (eq : CanonicalEquity) : bool :=
  existsb (fun holds => negb (holds (financials eq))) operands.

(** The count of the finding with the given description (0 when there is
    none). *)
Fixpoint count_named (name : string) (findings : list ConsistencyFinding) : Z :=
  match findings with
  | [] => 0
  | f :: rest => if String.eqb (description f) name then finding_count f
                 else count_named name rest
  end.

(** The count the ratio and plausibility batteries report under a
    description. *)
Definition violations (name : string) (equities : list CanonicalEquity) : Z :=
  count_named name (run_ratio_checks equities ++ run_plausibility_checks equities).

(** Every operand of the list holds a value on the record. *)
Definition complete (operands : list (EquityFinancials -> bool))
    (eq : CanonicalEquity) : bool :=
  negb (missing_operand operands eq).

(** Each finding of the list is reported by the batteries, and a record
    with a missing operand is not counted under it: the count over a set is
    the count over its records that have every operand. *)
Definition missing_operand_not_counted
    (findings : list (string * list (EquityFinancials -> bool))) : Prop :=
  Forall (fun '(name, operands) =>
            forall equities : list CanonicalEquity,
              In name (map description (run_ratio_checks equities
                                        ++ run_plausibility_checks equities)) /\
              violations name equities
              = violations name (filter (complete operands) equities))
         findings.

(** The ratio-ordering and range-plausibility findings that test a single
    comparison, with the operands of the comparison. *)
Definition single_comparison_findings
    : list (string * list (EquityFinancials -> bool)) :=
  [ ("Profit margin exceeds gross margin",
       [present profit_margin; present gross_margin]);
    ("Operating margin exceeds gross margin",
       [present operating_margin; present gross_margin]);
    ("52-week min exceeds max",
       [present fifty_two_week_min; present fifty_two_week_max]);
    ("Price outside 52-week range",
       [present last_price; present fifty_two_week_min;
        present fifty_two_week_max]);
    ("Extreme dividend yield (>100%)", [present dividend_yield]);
    ("Extreme trailing P/E (±1000)", [present trailing_pe]);
    ("Holdings exceed 100%", [present held_insiders; present held_institutions]) ].

(** All of them: the above and the ROE / ROA finding. *)
Definition ratio_and_plausibility_findings
    : list (string * list (EquityFinancials -> bool)) :=
  single_comparison_findings
  ++ [ ("Extreme ROE or ROA (±500%)",
          [present return_on_equity; present return_on_assets]) ].

(** The test [abs(v) > 5] that "Extreme ROE or ROA" applies to each of its
    two operands. *)
Definition extreme_magnitude (v : option Decimal) : bool :=
  match v with
  | Some d => PyDecimal.gt (PyDecimal.abs d) (PyDecimal.of_int 5)
  | None => false
  end.


(** The record has exactly [n] of its two 52-week bounds. *)
Definition bounds_present (n : Z) (eq : CanonicalEquity) : bool :=
  Z.b2z (is_not_none (fifty_two_week_min (financials eq)))
  + Z.b2z (is_not_none (fifty_two_week_max (financials eq))) =? n.

(** ** Distributions *)

(** A record that enters the market-cap distribution. *)
Definition has_positive_market_cap (eq : CanonicalEquity) : bool :=
  match market_cap (financials eq) with
  | Some m => PyDecimal.gt m (PyDecimal.of_int 0)
  | None => false
  end.

(** The distribution with no value in it. *)
Definition empty_market_caps : MarketCapDistribution :=
  {| mc_count := 0; mc_median := 0; mc_mean := 0; mc_values := [] |}.

(** The completeness distribution of no record. *)
Definition empty_completeness : CompletenessDistribution :=
  {| cd_count := 0; cd_median := 0; cd_mean := 0; cd_values := [] |}.

(** ** Formatters *)




(** The formatters return a string on every input. *)
Definition never_fails
    (float_of_str : string -> option Float64.float)
    (format_fixed : bool -> Z -> Float64.float -> option string)
    (str_of_float : Float64.float -> string) (str_of_int : Z -> string)
    : Prop :=
  forall (v : Formatters.value) (decimals : Z),
    (exists s, Formatters.fmt_number float_of_str format_fixed str_of_float
                 str_of_int v decimals = Py.Ok s) /\
    (exists s, Formatters.fmt_ratio float_of_str format_fixed str_of_float
                 str_of_int v = Py.Ok s).

(** ** Sector heatmap *)

(** The record is classified in sector [s]. *)
Definition in_sector (s : string) (eq : CanonicalEquity) : bool :=
  match sector (financials eq) with
  | Some s' => String.eqb s' s
  | None => false
  end.

(** The records of sector [s], in their order in the set. *)
Definition members (s : string) (equities : list CanonicalEquity)
    : list CanonicalEquity :=
  filter (in_sector s) equities.

(** The sectors on record, one per record that has one. *)
Definition sectors_of (equities : list CanonicalEquity) : list string :=
  flat_map (fun eq => match sector (financials eq) with
                      | Some s => [s]
                      | None => []
                      end) equities.

(** The distinct elements of a list, in order of first occurrence. *)
Definition first_occurrences (xs : list string) : list string :=
  fold_left (fun seen x => if existsb (String.eqb x) seen then seen
                           else seen ++ [x]) xs [].

(** Attribute name of the heatmap field number [c]. *)
Definition heatmap_attr (c : nat) : string :=
  fst (nth c heatmap_fields ("", "")).

(** Label of the heatmap field number [c]. *)
Definition heatmap_label (c : nat) : string :=
  snd (nth c heatmap_fields ("", "")).

(** Coverage percentage of the heatmap field number [c] within sector [s]. *)
Definition cell (equities : list CanonicalEquity) (s : string) (c : nat) : Q :=
  let group := members s equities in
  DataProvider._field_coverage_pct group (heatmap_attr c) (Py.len group).

(** The row of a sector over all heatmap fields. *)
Definition sector_row (equities : list CanonicalEquity) (s : string) : list Q :=
  DataProvider._sector_coverage_row (members s equities) heatmap_fields.


(** The mean of a field over the sectors shown: the key the fields are
    ranked by. *)
Definition field_mean (equities : list CanonicalEquity) (shown : list string)
    (c : nat) : Q :=
  (Py.fsum (map (fun s => cell equities s c) shown) / inject_Z (Py.len shown))%Q.

(** The column order computed from the means [f] of [n] columns. *)
Definition ranked_columns (f : nat -> Q) (n : nat) : list nat :=
  map fst (Py.sorted_reverse snd (Py.enumerate (map f (seq 0 n)))).

(** The sectors in display order. *)
Definition ranked_sectors (equities : list CanonicalEquity) : list string :=
  map fst (Py.sorted (fun p => DataProvider._mean (snd p))
             (map (fun s => (s, sector_row equities s))
                  (first_occurrences (sectors_of equities)))).

(** The fields in display order, by number. *)
Definition shown_columns (equities : list CanonicalEquity) : list nat :=
  ranked_columns (field_mean equities (ranked_sectors equities))
    (match ranked_sectors equities with
     | [] => 0
     | _ => List.length heatmap_fields
     end).

(** ** Findings by name *)

(** How many records report both a last price and a market cap. *)
Definition priced_and_capitalised (equities : list CanonicalEquity) : Z :=
  Z.of_nat (List.length
    (filter (fun eq => is_not_none (last_price (financials eq))
                       && is_not_none (market_cap (financials eq))) equities)).

(** ** Market identifiers *)

(** The string has no comma in it. *)
Fixpoint comma_free (s : string) : bool :=
  match s with
  | EmptyString => true
  | String c rest => negb (Ascii.eqb c ",") && comma_free rest
  end.

(** A venue code as the upstream source gives it: no comma, no white space
    around it. *)
Definition clean_code (code : string) : Prop :=
  comma_free code = true /\ TradingView.strip code = code.

(** The text of a grid cell, as [data.get("MICs")] hands it to the
    resolver: [None] for an empty cell. *)
Definition cell_text (c : option UniverseDataProvider.cell) : option string :=
  match c with
  | Some (UniverseDataProvider.CStr s) => Some s
  | _ => None
  end.

(** The markets of a list of venue codes, by the lookup table. *)
Definition markets_of (codes : list string) : list string :=
  flat_map (fun code =>
              match TradingView.mic_map_get code TradingView._mic_to_tv_market_map
              with
              | Some market => [market]
              | None => []
              end) codes.

(** ** Symbol resolution *)

Section ResolutionTerms.

Import TradingView.

(** What one search yields for a given outcome of the request: every
    exception raised while reading the response is swallowed. *)
Definition scan_answer (outcome : post_outcome) : option json :=
  match read_top_result outcome with
  | Py.Ok result => result
  | Py.Raise _ => None
  end.

(** The request asks the scanner for the stocks of [markets] whose [field]
    compares to [query] by [operation]. *)
Definition searches (request : json) (field operation query : string)
    (markets : list string) : Prop :=
  exists members,
    request = JObj members /\
    lookup "markets" members = Some (JArr (map JStr markets)) /\
    lookup "filter" members
    = Some (JArr [JObj [ ("left", JStr field);
                         ("operation", JStr operation);
                         ("right", JStr query) ]]).

(** The three searches, in the order the specification gives them: the
    field searched, the comparison, and the query.  The scanner holds the
    ticker in its field "name" and the company name in "description";
    "equal" is its exact comparison and "match" its fuzzy one. *)
Definition tiers (symbol equity_name : string)
    : list (string * string * string) :=
  [ ("name", "equal", symbol);
    ("description", "match", equity_name);
    ("name", "match", symbol) ].

(** [requests] are the requests of the tiers whose query is not empty, in
    order. *)
Definition tier_requests (symbol equity_name : string) (markets : list string)
    (requests : list json) : Prop :=
  Forall2 (fun request '(field, operation, query) =>
             searches request field operation query markets)
          requests
          (filter (fun '(_, _, query) => negb (String.eqb query ""))
                  (tiers symbol equity_name)).

(** The markets the venue codes of an equity narrow the search to: the
    table images of the comma-separated codes, each once. *)
Definition venue_markets (mics : option string) : list string :=
  match mics with
  | Some m => first_occurrences (markets_of (map strip (split "," m)))
  | None => []
  end.

(** The answer to the [i]-th request of [requests], posted as the
    [(first + i)]-th request the service sees. *)
Definition answer_at (respond : nat -> json -> post_outcome) (first : nat)
    (requests : list json) (i : nat) : option json :=
  match nth_error requests i with
  | Some request => scan_answer (respond (first + i)%nat request)
  | None => None
  end.

(** The outcome of a fallback chain over [requests]: [k] requests were
    posted, in order; all but the last had no result; the value returned is
    the result of the last one, or the fallback when all were tried in
    vain. *)
Definition fallback_outcome (respond : nat -> json -> post_outcome)
    (first : nat) (requests : list json) (fallback : json)
    (k : nat) (result : json) : Prop :=
  (k <= List.length requests)%nat /\
  (forall i, (S i < k)%nat -> answer_at respond first requests i = None) /\
  ((exists j, k = S j /\ answer_at respond first requests j = Some result) \/
   (k = List.length requests /\
    (forall i, (i < k)%nat -> answer_at respond first requests i = None) /\
    result = fallback)).

(** What the cache holds for [key] at time [now]: the value of the first
    entry under that key, unless it has expired. *)
Definition remembered (key : cache_key) (now : Q) (store : cache)
    : option json :=
  match find (fun p => key_eqb (fst p) key) store with
  | Some (_, entry) =>
      if Qle_bool (expires entry) now then None else Some (cached entry)
  | None => None
  end.

(** [value] is an outcome of the three-tier fallback for [key], over
    requests the service had received by the time it had seen [seen]
    requests. *)
Definition resolved (respond : nat -> json -> post_outcome) (seen : nat)
    (key : cache_key) (value : json) : Prop :=
  let '(symbol, equity_name, mics) := key in
  exists requests first k,
    tier_requests symbol equity_name (venue_markets mics) requests /\
    (first + k <= seen)%nat /\
    fallback_outcome respond first requests (JStr symbol) k value.

(** Every value in the cache was resolved by the fallback. *)
Definition cache_sound (respond : nat -> json -> post_outcome) (seen : nat)
    (store : cache) : Prop :=
  forall key entry, In (key, entry) store ->
                    resolved respond seen key (cached entry).

End ResolutionTerms.

(** A service that drops the first request and answers the second. *)
Definition flaky_service : TradingView.world :=
  {| TradingView.respond := fun n _ =>
       match n with
       | 1%nat =>
           TradingView.Responded
             {| TradingView.is_success := true;
                TradingView.body :=
                  Some (TradingView.JObj
                    [("data", TradingView.JArr
                       [TradingView.JObj
                          [("s", TradingView.JStr "NASDAQ:AAPL")]])]) |}
       | _ => TradingView.Failed
       end;
     TradingView.sent := [] |}.

(** ** Analyst ratings *)

(** The five rating labels, from best to worst. *)
Definition severity (label : string) : Z :=
  if String.eqb label "Strong Buy" then 0
  else if String.eqb label "Buy" then 1
  else if String.eqb label "Hold" then 2
  else if String.eqb label "Sell" then 3
  else if String.eqb label "Strong Sell" then 4
  else 5.

(** * Properties *)

(** ** Counting *)

Section Counting.

Context {A : Type}.

Lemma sum_ones_from (xs : list A) (acc : Z) :
  fold_left Z.add (map (fun _ => 1) xs) acc = acc + Z.of_nat (List.length xs).
Proof.
  revert acc. induction xs as [|x xs IH]; intros acc.
  - simpl. lia.
  - cbn [map fold_left List.length]. rewrite IH. lia.
Qed.

Lemma count_if_filter (p : A -> bool) (xs : list A) :
  Py.count_if p xs = Z.of_nat (List.length (filter p xs)).
Proof.
  unfold Py.count_if, Py.sum. rewrite sum_ones_from. lia.
Qed.

Lemma count_if_bounds (p : A -> bool) (xs : list A) :
  0 <= Py.count_if p xs <= Py.len xs.
Proof.
  rewrite count_if_filter. unfold Py.len.
  pose proof (filter_length_le p xs). lia.
Qed.

Lemma count_if_ext (p q : A -> bool) (xs : list A) :
  (forall x, p x = q x) -> Py.count_if p xs = Py.count_if q xs.
Proof.
  intros H. unfold Py.count_if. now rewrite (filter_ext p q H).
Qed.

End Counting.

(** ** Percentages *)

Lemma truediv_unit_interval (c t : Z) :
  0 <= c <= t -> t <> 0 -> (0 <= Py.truediv c t <= 1)%Q.
Proof.
  intros Hc Ht. unfold Py.truediv.
  assert (Hpos : (0 < inject_Z t)%Q).
  { change 0%Q with (inject_Z 0). rewrite <- Zlt_Qlt. lia. }
  split.
  - apply Qle_shift_div_l; [exact Hpos|].
    rewrite Qmult_0_l. change 0%Q with (inject_Z 0). rewrite <- Zle_Qle. lia.
  - apply Qle_shift_div_r; [exact Hpos|].
    rewrite Qmult_1_l. rewrite <- Zle_Qle. lia.
Qed.

Lemma percentage_in_range (c t : Z) :
  0 <= c <= t ->
  (0 <= (if t =? 0 then 0 else Py.truediv c t * 100) <= 100)%Q.
Proof.
  intros Hc. destruct (Z.eqb_spec t 0) as [_|Ht].
  - split; [apply Qle_refl | discriminate].
  - pose proof (truediv_unit_interval c t Hc Ht). lra.
Qed.

(** ** Coverage statistics and findings stay within the total *)

Lemma finding_ok (description : string) (equities : list CanonicalEquity)
    (predicate : CanonicalEquity -> bool) :
  finding_within_total (Py.len equities)
    (_finding description equities (Py.len equities) predicate).
Proof.
  unfold finding_within_total, Renderers.affected_pct, _finding; cbn.
  pose proof (count_if_bounds predicate equities) as Hb.
  repeat split; try apply Hb; now apply percentage_in_range.
Qed.

Lemma compute_coverage_ok (equities : list CanonicalEquity) (group : string)
    (fields : list (string * string)) :
  Forall (coverage_within_total (Py.len equities))
    (DataProvider._compute_coverage equities group fields).
Proof.
  unfold DataProvider._compute_coverage. apply Forall_map.
  apply Forall_forall. intros [attr label] _.
  unfold coverage_within_total, Renderers.coverage_pct,
    DataProvider._count_populated; cbn.
  pose proof (count_if_bounds
    (fun eq => is_not_none (getattr_group eq group attr)) equities) as Hb.
  repeat split; try apply Hb; now apply percentage_in_range.
Qed.

Lemma field_coverage_pct_ok (equities : list CanonicalEquity) (attr : string) :
  (0 <= DataProvider._field_coverage_pct equities attr (Py.len equities) <= 100)%Q.
Proof.
  unfold DataProvider._field_coverage_pct.
  apply percentage_in_range, count_if_bounds.
Qed.

Lemma sector_coverage_row_ok (equities : list CanonicalEquity)
    (fields : list (string * string)) :
  Forall (fun pct => (0 <= pct <= 100)%Q)
    (DataProvider._sector_coverage_row equities fields).
Proof.
  unfold DataProvider._sector_coverage_row. apply Forall_map.
  apply Forall_forall. intros [attr label] _. apply field_coverage_pct_ok.
Qed.

(** C1.  Over any list of equities, every per-field coverage statistic
    (whatever the group and the field list) and every finding of the three
    check batteries carries [total = len(equities)] and [0 <= count <= total],
    and the percentage derived from it ([count / total * 100], or 0 when the
    total is 0) lies in [[0, 100]]; so does every per-field percentage of a
    sector row. *)
Theorem counts_within_total_percentages_in_range
    (equities : list CanonicalEquity) :
  (forall group fields,
     Forall (coverage_within_total (Py.len equities))
       (DataProvider._compute_coverage equities group fields)) /\
  Forall (finding_within_total (Py.len equities))
    (run_cross_field_checks equities ++ run_ratio_checks equities
       ++ run_plausibility_checks equities) /\
  (forall fields,
     Forall (fun pct => (0 <= pct <= 100)%Q)
       (DataProvider._sector_coverage_row equities fields)).
Proof.
  split; [|split].
  - intros group fields. apply compute_coverage_ok.
  - unfold run_cross_field_checks, run_ratio_checks, run_plausibility_checks.
    cbn [app]. repeat (constructor; [apply finding_ok|]). constructor.
  - intros fields. apply sector_coverage_row_ok.
Qed.

(** ** Overall coverage *)

Lemma py_sum_from (xs : list Z) (acc : Z) :
  fold_left Z.add xs acc = acc + total_of xs.
Proof.
  revert acc. induction xs as [|x xs IH]; intros acc; cbn.
  - lia.
  - rewrite IH. unfold total_of. lia.
Qed.

Lemma py_sum_total_of (xs : list Z) : Py.sum xs = total_of xs.
Proof. unfold Py.sum. now rewrite py_sum_from. Qed.

(** C2.  The overall coverage of a group is the sum of the per-field counts
    over the sum of the per-field totals, times 100, and 0 when the summed
    total is 0; as a function of the group it differs from the arithmetic
    mean of the per-field percentages. *)
Theorem overall_coverage_is_weighted_average :
  (forall coverage : list FieldCoverage,
     Renderers._overall_coverage coverage = weighted_coverage coverage) /\
  (exists coverage : list FieldCoverage,
     ~ (Renderers._overall_coverage coverage == mean_of_percentages coverage)%Q).
Proof.
  split.
  - intros coverage. unfold Renderers._overall_coverage, weighted_coverage.
    now rewrite !py_sum_total_of.
  - exists [ {| label := "Name"; count := 1; total := 1 |};
             {| label := "ISIN"; count := 0; total := 3 |} ].
    vm_compute. discriminate.
Qed.

(** ** The two field lists and their coverage *)

Lemma count_populated_attr {T : Type} (equities : list CanonicalEquity)
    (group attr : string) (field : CanonicalEquity -> option T) :
  (forall eq, is_not_none (getattr_group eq group attr) = is_not_none (field eq)) ->
  DataProvider._count_populated equities group attr
  = populated (fun eq => is_not_none (field eq)) equities.
Proof.
  intros H. unfold DataProvider._count_populated, populated.
  rewrite <- count_if_filter. now apply count_if_ext.
Qed.

Lemma is_not_none_map {T U : Type} (f : T -> U) (o : option T) :
  is_not_none (option_map f o) = is_not_none o.
Proof. now destruct o. Qed.

Ltac solve_coverage_entry :=
  unfold coverage_of; f_equal;
  apply count_populated_attr; intros eq;
  cbn; unfold str_attr, dec_attr, list_attr; apply is_not_none_map.

(** C3.  Coverage runs over two fixed ordered lists, 7 identity fields and
    31 financial fields; the entry of each field counts the records whose
    field is not [None] against the number of records, and its percentage
    is [count / total * 100], or 0 when the total is 0. *)
Theorem coverage_over_fixed_field_lists :
  List.length identity_fields = 7%nat /\
  List.length financial_fields = 31%nat /\
  (forall equities : list CanonicalEquity,
     let id {T} (p : EquityIdentity -> option T) eq := p (identity eq) in
     let fin {T} (p : EquityFinancials -> option T) eq := p (financials eq) in
     DataProvider._compute_coverage equities "identity" identity_fields
     = [ coverage_of equities "Name" (id name);
         coverage_of equities "Symbol" (id symbol);
         coverage_of equities "FIGI" (id share_class_figi);
         coverage_of equities "ISIN" (id isin);
         coverage_of equities "CUSIP" (id cusip);
         coverage_of equities "CIK" (id cik);
         coverage_of equities "LEI" (id lei) ] /\
     DataProvider._compute_coverage equities "financials" financial_fields
     = [ coverage_of equities "MICs" (fin mics);
         coverage_of equities "Currency" (fin currency);
         coverage_of equities "Last Price" (fin last_price);
         coverage_of equities "Market Cap" (fin market_cap);
         coverage_of equities "52W Min" (fin fifty_two_week_min);
         coverage_of equities "52W Max" (fin fifty_two_week_max);
         coverage_of equities "Dividend Yield" (fin dividend_yield);
         coverage_of equities "Market Volume" (fin market_volume);
         coverage_of equities "Held Insiders" (fin held_insiders);
         coverage_of equities "Held Institutions" (fin held_institutions);
         coverage_of equities "Short Interest" (fin short_interest);
         coverage_of equities "Share Float" (fin share_float);
         coverage_of equities "Shares Outstanding" (fin shares_outstanding);
         coverage_of equities "Revenue/Share" (fin revenue_per_share);
         coverage_of equities "Profit Margin" (fin profit_margin);
         coverage_of equities "Gross Margin" (fin gross_margin);
         coverage_of equities "Operating Margin" (fin operating_margin);
         coverage_of equities "Free Cash Flow" (fin free_cash_flow);
         coverage_of equities "Operating Cash Flow" (fin operating_cash_flow);
         coverage_of equities "ROE" (fin return_on_equity);
         coverage_of equities "ROA" (fin return_on_assets);
         coverage_of equities "1Y Performance" (fin performance_1_year);
         coverage_of equities "Total Debt" (fin total_debt);
         coverage_of equities "Revenue" (fin revenue);
         coverage_of equities "EBITDA" (fin ebitda);
         coverage_of equities "Trailing P/E" (fin trailing_pe);
         coverage_of equities "Price/Book" (fin price_to_book);
         coverage_of equities "Trailing EPS" (fin trailing_eps);
         coverage_of equities "Analyst Rating" (fin analyst_rating);
         coverage_of equities "Industry" (fin industry);
         coverage_of equities "Sector" (fin sector) ]) /\
  (forall fc : FieldCoverage,
     Renderers.coverage_pct fc
     = if total fc =? 0 then 0%Q
       else (inject_Z (count fc) / inject_Z (total fc) * 100)%Q).
Proof.
  split; [reflexivity|]. split; [reflexivity|]. split.
  - intros equities id fin.
    unfold DataProvider._compute_coverage, identity_fields, financial_fields.
    cbn [map]. subst id fin. cbv beta.
    split; repeat (apply (f_equal2 cons); [solve_coverage_entry|]); reflexivity.
  - intros fc. reflexivity.
Qed.

(** ** Decimal comparison is the order of the values *)

Lemma to_float_aligned (c e e0 : Z) :
  e0 <= e ->
  (PyDecimal.to_float (mkDecimal c e)
   == inject_Z (c * 10 ^ (e - e0)) * Qpower (10 # 1) e0)%Q.
Proof.
  intros He. unfold PyDecimal.to_float. cbn [PyDecimal.coefficient PyDecimal.exponent].
  rewrite inject_Z_mult, Zpower_Qpower by lia.
  change (inject_Z 10) with (10 # 1)%Q.
  rewrite <- Qmult_assoc, <- Qpower_plus by discriminate.
  now replace (e - e0 + e0) with e by lia.
Qed.

Lemma decimal_lt_exact (a b : Decimal) :
  PyDecimal.lt a b = true <->
  (PyDecimal.to_float a < PyDecimal.to_float b)%Q.
Proof.
  destruct a as [ca ea], b as [cb eb].
  unfold PyDecimal.lt, PyDecimal.compare, PyDecimal.align.
  cbn [PyDecimal.coefficient PyDecimal.exponent].
  set (e0 := Z.min ea eb).
  rewrite (to_float_aligned ca ea e0), (to_float_aligned cb eb e0)
    by (subst e0; lia).
  rewrite Qmult_lt_r by (apply Qpower_0_lt; reflexivity).
  rewrite <- Zlt_Qlt. unfold Z.lt.
  destruct (ca * 10 ^ (ea - e0) ?= cb * 10 ^ (eb - e0)); split;
    congruence.
Qed.

(** Below 29 digits the context rounding changes nothing, and products and
    sums are exact. *)
Lemma decimal_mul_exact (a b : Decimal) :
  PyDecimal.digits (Z.abs (PyDecimal.coefficient a * PyDecimal.coefficient b))
    <= PyDecimal.prec ->
  (PyDecimal.to_float (PyDecimal.mul a b)
   == PyDecimal.to_float a * PyDecimal.to_float b)%Q.
Proof.
  intros Hd. unfold PyDecimal.mul, PyDecimal.fix_.
  cbn [PyDecimal.coefficient PyDecimal.exponent].
  apply Z.leb_le in Hd. rewrite Hd.
  unfold PyDecimal.to_float. cbn [PyDecimal.coefficient PyDecimal.exponent].
  rewrite inject_Z_mult, Qpower_plus by discriminate. ring.
Qed.

Lemma decimal_add_exact (a b : Decimal) :
  (let '(ca, cb, _) := PyDecimal.align a b in
   PyDecimal.digits (Z.abs (ca + cb)) <= PyDecimal.prec) ->
  (PyDecimal.to_float (PyDecimal.add a b)
   == PyDecimal.to_float a + PyDecimal.to_float b)%Q.
Proof.
  destruct a as [ca ea], b as [cb eb].
  unfold PyDecimal.add, PyDecimal.align, PyDecimal.fix_.
  cbn [PyDecimal.coefficient PyDecimal.exponent].
  set (e0 := Z.min ea eb). intros Hd. apply Z.leb_le in Hd. rewrite Hd.
  rewrite (to_float_aligned ca ea e0), (to_float_aligned cb eb e0)
    by (subst e0; lia).
  unfold PyDecimal.to_float. cbn [PyDecimal.coefficient PyDecimal.exponent].
  rewrite inject_Z_plus. ring.
Qed.

(** With a maximum short enough for [max * 1.05] to be exact, the range
    check compares the values as rationals. *)
Lemma price_outside_range_exact (eq : CanonicalEquity) (price lo hi : Decimal) :
  last_price (financials eq) = Some price ->
  fifty_two_week_min (financials eq) = Some lo ->
  fifty_two_week_max (financials eq) = Some hi ->
  PyDecimal.digits (Z.abs (PyDecimal.coefficient hi * 105)) <= PyDecimal.prec ->
  _price_outside_range eq = true <->
  (PyDecimal.to_float price < PyDecimal.to_float lo \/
   PyDecimal.to_float hi * (105 # 100) < PyDecimal.to_float price)%Q.
Proof.
  intros Hp Hlo Hhi Hd. unfold _price_outside_range.
  rewrite Hp, Hlo, Hhi, orb_true_iff. unfold PyDecimal.gt.
  rewrite !decimal_lt_exact, decimal_mul_exact by exact Hd.
  assert (E : (PyDecimal.to_float d1_05 == 105 # 100)%Q) by reflexivity.
  now rewrite E.
Qed.

(** ** Range plausibility checks *)

(** C4.  A record is flagged by "Price outside 52-week range" exactly when
    last price, 52-week minimum and 52-week maximum are all present and the
    price is below the minimum or above the maximum times 1.05; the finding
    of that name counts with this predicate.  With price 100, minimum 50 and
    maximum 90 the record is flagged (90 * 1.05 = 94.50 < 100); with price 94
    it is not; below the minimum there is no tolerance. *)
Theorem price_outside_range_flagged_iff :
  (forall eq : CanonicalEquity,
     _price_outside_range eq = true <->
     exists price lo hi : Decimal,
       last_price (financials eq) = Some price /\
       fifty_two_week_min (financials eq) = Some lo /\
       fifty_two_week_max (financials eq) = Some hi /\
       (PyDecimal.lt price lo = true \/
        PyDecimal.gt price (PyDecimal.mul hi (mkDecimal 105 (-2))) = true)) /\
  (forall equities : list CanonicalEquity,
     In (_finding "Price outside 52-week range" equities (Py.len equities)
           _price_outside_range)
        (run_plausibility_checks equities)) /\
  PyDecimal.mul (mkDecimal 90 0) (mkDecimal 105 (-2)) = mkDecimal 9450 (-2) /\
  _price_outside_range (priced (dec 100 0) (dec 50 0) (dec 90 0)) = true /\
  _price_outside_range (priced (dec 94 0) (dec 50 0) (dec 90 0)) = false /\
  _price_outside_range (priced (dec 4999 (-2)) (dec 50 0) (dec 90 0)) = true.
Proof.
  split; [|split].
  - intros eq. unfold _price_outside_range, d1_05.
    destruct (last_price (financials eq)) as [p|];
      destruct (fifty_two_week_min (financials eq)) as [lo|];
      destruct (fifty_two_week_max (financials eq)) as [hi|];
      try (split; [discriminate | intros (? & ? & ? & ? & ? & ? & _); discriminate]).
    rewrite orb_true_iff. split.
    + intros H. exists p, lo, hi. auto.
    + intros (p' & lo' & hi' & Hp & Hlo & Hhi & H).
      injection Hp as <-. injection Hlo as <-. injection Hhi as <-. exact H.
  - intros equities. unfold run_plausibility_checks. cbn. auto.
  - repeat split; vm_compute; reflexivity.
Qed.

(** C5.  A record is flagged by "Holdings exceed 100%" exactly when held
    insiders and held institutions are both present and their sum is above
    1.05; the finding of that name counts with this predicate.  With
    insiders 0.6 and institutions 0.5 the sum is 1.1 and the record is
    flagged; a sum of exactly 1.05 is not. *)
Theorem holdings_exceed_flagged_iff :
  (forall eq : CanonicalEquity,
     _holdings_exceed eq = true <->
     exists insiders institutions : Decimal,
       held_insiders (financials eq) = Some insiders /\
       held_institutions (financials eq) = Some institutions /\
       PyDecimal.gt (PyDecimal.add insiders institutions) (mkDecimal 105 (-2))
       = true) /\
  (forall equities : list CanonicalEquity,
     In (_finding "Holdings exceed 100%" equities (Py.len equities)
           _holdings_exceed)
        (run_plausibility_checks equities)) /\
  PyDecimal.add (mkDecimal 6 (-1)) (mkDecimal 5 (-1)) = mkDecimal 11 (-1) /\
  _holdings_exceed (held (dec 6 (-1)) (dec 5 (-1))) = true /\
  _holdings_exceed (held (dec 55 (-2)) (dec 5 (-1))) = false.
Proof.
  split; [|split].
  - intros eq. unfold _holdings_exceed, d1_05.
    destruct (held_insiders (financials eq)) as [a|];
      destruct (held_institutions (financials eq)) as [b|];
      try (split; [discriminate | intros (? & ? & ? & ? & _); discriminate]).
    split.
    + intros H. exists a, b. auto.
    + intros (a' & b' & Ha & Hb & H).
      injection Ha as <-. injection Hb as <-. exact H.
  - intros equities. unfold run_plausibility_checks. cbn. auto 10.
  - repeat split; vm_compute; reflexivity.
Qed.

(** ** Missing operands *)

Lemma count_if_restrict {A : Type} (p q : A -> bool) (l : list A) :
  (forall x, p x = true -> q x = true) ->
  Py.count_if p l = Py.count_if p (filter q l).
Proof.
  intros H. rewrite !count_if_filter. do 2 f_equal.
  induction l as [|x l IH]; cbn [filter]; [reflexivity|].
  destruct (q x) eqn:Eq; cbn [filter].
  - destruct (p x); now rewrite IH.
  - destruct (p x) eqn:Ep; [|exact IH].
    rewrite (H x Ep) in Eq. discriminate.
Qed.

Lemma count_if_populated {A : Type} (p : A -> bool) (l : list A) :
  Py.count_if p l = Z.of_nat (List.length (filter p l)).
Proof. apply count_if_filter. Qed.

(** A record with return on equity missing and a return on assets of 600%
    is counted by "Extreme ROE or ROA": the batteries do count a record with
    a missing operand. *)
Lemma extreme_return_flagged_with_roe_missing :
  ~ missing_operand_not_counted ratio_and_plausibility_findings.
Proof.
  unfold missing_operand_not_counted. rewrite Forall_forall. intros H.
  specialize (H ("Extreme ROE or ROA (±500%)",
                 [present return_on_equity; present return_on_assets])).
  cbv beta iota in H.
  assert (Hin : In ("Extreme ROE or ROA (±500%)",
                    [present return_on_equity; present return_on_assets])
                   ratio_and_plausibility_findings).
  { unfold ratio_and_plausibility_findings. apply in_or_app. right. now left. }
  destruct (H Hin [returning None (dec 6 0)]) as [_ Hcount].
  vm_compute in Hcount. discriminate.
Qed.

Ltac by_complete_operands :=
  let eq := fresh "eq" in
  intros eq;
  unfold complete, missing_operand, present, _profit_exceeds_gross,
    _operating_exceeds_gross, _has_inverted_range, _price_outside_range,
    extreme_dividend_yield, _has_extreme_pe, _holdings_exceed;
  cbn [existsb];
  repeat match goal with
         | |- context [match ?field (financials eq) with _ => _ end] =>
             destruct (field (financials eq))
         | |- context [is_not_none (?field (financials eq))] =>
             destruct (field (financials eq))
         end;
  cbn; intros; (reflexivity || discriminate).

(** C6 (as amended).  Under every ratio-ordering and range-plausibility
    finding that tests a single comparison, a record with a missing operand
    is not counted: the count the battery reports is the count over the
    records that have every operand.  "Extreme ROE or ROA" tests each of its
    two operands on its own: it counts the records on which one of the two
    exceeds the threshold, so a record with one operand missing is counted
    when the other is extreme, and a record with both missing is not.  A
    presence check, "Price recorded without market cap", counts exactly the
    records that have a price and no market cap. *)
Theorem missing_operand_not_a_violation :
  missing_operand_not_counted single_comparison_findings /\
  (forall equities : list CanonicalEquity,
     violations "Extreme ROE or ROA (±500%)" equities
     = populated (fun eq =>
                    extreme_magnitude (return_on_equity (financials eq))
                    || extreme_magnitude (return_on_assets (financials eq)))
                 equities) /\
  extreme_magnitude None = false /\
  (forall equities : list CanonicalEquity,
     count_named "Price recorded without market cap"
       (run_cross_field_checks equities)
     = populated (fun eq => is_not_none (last_price (financials eq))
                            && negb (is_not_none (market_cap (financials eq))))
                 equities).
Proof.
  split; [|split; [|split]].
  - unfold missing_operand_not_counted, single_comparison_findings.
    repeat (constructor;
            [intros equities; split;
             [cbn; tauto
             |unfold violations, run_ratio_checks, run_plausibility_checks,
                _finding;
              cbn [app count_named description finding_count
                   String.eqb Ascii.eqb Bool.eqb];
              apply count_if_restrict; by_complete_operands]|]).
    constructor.
  - intros equities.
    unfold violations, run_ratio_checks, run_plausibility_checks, _finding.
    cbn [app count_named description finding_count
         String.eqb Ascii.eqb Bool.eqb].
    unfold populated. rewrite <- count_if_populated.
    apply count_if_ext. intros eq.
    unfold _has_extreme_return, extreme_magnitude.
    destruct (return_on_equity (financials eq)) as [roe|]; [|reflexivity].
    destruct (PyDecimal.gt _ _); reflexivity.
  - reflexivity.
  - intros equities. unfold run_cross_field_checks, _finding.
    cbn [count_named description finding_count String.eqb Ascii.eqb Bool.eqb].
    unfold populated. rewrite <- count_if_populated.
    apply count_if_ext. intros eq. unfold has_field. cbn. unfold dec_attr.
    now rewrite !is_not_none_map.
Qed.

(** The amended statement on four records: one priced outside its range,
    two with a bound missing, and one with no return on equity and a return
    on assets of 600%. *)
Lemma missing_operand_not_a_violation_witness :
  let records :=
    [ priced (dec 100 0) (dec 50 0) (dec 90 0);
      priced (dec 100 0) None (dec 90 0);
      priced (dec 100 0) (dec 50 0) None;
      returning None (dec 6 0) ] in
  violations "Price outside 52-week range" records = 1 /\
  violations "Extreme ROE or ROA (±500%)" records = 1.
Proof.
  cbv zeta.
  destruct missing_operand_not_a_violation as (Hsingle & Hreturn & _ & _).
  unfold missing_operand_not_counted in Hsingle.
  rewrite Forall_forall in Hsingle.
  split.
  - specialize (Hsingle ("Price outside 52-week range",
                         [present last_price; present fifty_two_week_min;
                          present fifty_two_week_max])).
    cbv beta iota in Hsingle.
    destruct (Hsingle ltac:(cbn; tauto)
                [ priced (dec 100 0) (dec 50 0) (dec 90 0);
                  priced (dec 100 0) None (dec 90 0);
                  priced (dec 100 0) (dec 50 0) None;
                  returning None (dec 6 0) ]) as [_ Hcount].
    rewrite Hcount. reflexivity.
  - rewrite Hreturn. reflexivity.
Defined.

(** ** Distributions over an empty or unqualified set *)

Lemma insert_by_length {A : Type} (le : A -> A -> bool) (x : A) (l : list A) :
  List.length (Py.insert_by le x l) = S (List.length l).
Proof.
  induction l as [|y l IH]; cbn; [reflexivity|].
  destruct (le x y); cbn; [reflexivity|]. now rewrite IH.
Qed.

Lemma sorted_length {A : Type} (key : A -> Q) (l : list A) :
  List.length (Py.sorted key l) = List.length l.
Proof.
  unfold Py.sorted. induction l as [|x l IH]; cbn [fold_right]; [reflexivity|].
  rewrite insert_by_length, IH. reflexivity.
Qed.

Lemma getitem_in_range {A : Type} (l : list A) (i : nat) :
  (i < List.length l)%nat -> exists x, Py.getitem l i = Py.Ok x.
Proof.
  intros Hi. unfold Py.getitem.
  destruct (nth_error l i) as [x|] eqn:E; [now exists x|].
  apply nth_error_None in E. lia.
Qed.

Lemma median_defined (data : list Q) :
  data <> [] -> exists m, Py.median data = Py.Ok m.
Proof.
  intros Hne. unfold Py.median.
  pose proof (sorted_length (fun x => x) data) as Hlen.
  set (s := Py.sorted (fun x => x) data) in *.
  assert (Hpos : (0 < List.length s)%nat).
  { rewrite Hlen. destruct data; [congruence | cbn; lia]. }
  destruct (Nat.eqb_spec (List.length s) 0) as [E|_]; [lia|].
  pose proof (Nat.div_lt (List.length s) 2 Hpos ltac:(lia)) as Hhalf.
  destruct (Nat.eqb (List.length s mod 2) 1).
  - now apply getitem_in_range.
  - destruct (getitem_in_range s (List.length s / 2 - 1)) as [a Ha]; [lia|].
    destruct (getitem_in_range s (List.length s / 2)) as [b Hb]; [lia|].
    rewrite Ha, Hb. cbn. eauto.
Qed.

Lemma mean_defined (data : list Q) :
  data <> [] -> exists m, Py.mean data = Py.Ok m.
Proof.
  intros Hne. unfold Py.mean.
  destruct data as [|x data]; [congruence|]. cbn [List.length Nat.eqb]. eauto.
Qed.

Lemma extract_market_caps_nil (equities : list CanonicalEquity) :
  DataProvider._extract_market_caps equities = [] <->
  forallb (fun eq => negb (has_positive_market_cap eq)) equities = true.
Proof.
  unfold DataProvider._extract_market_caps, has_positive_market_cap.
  induction equities as [|eq equities IH]; cbn; [tauto|].
  destruct (market_cap (financials eq)) as [m|]; cbn; [|exact IH].
  destruct (PyDecimal.gt m (PyDecimal.of_int 0)); cbn; [|exact IH].
  split; discriminate.
Qed.

(** C10.  Both distributions are defined on every equity set: the loaders
    never raise, although [statistics.median] and [statistics.mean] raise on
    empty data, because they are called on non-empty tuples only.  When no
    equity has a positive market cap (in particular on the empty set) the
    market-cap distribution has count 0, median 0 and mean 0; the
    completeness scores are empty exactly on the empty set, where the
    completeness distribution has count 0, median 0 and mean 0. *)
Theorem distributions_defined_without_values :
  Py.median [] = Py.Raise Py.StatisticsError /\
  Py.mean [] = Py.Raise Py.StatisticsError /\
  (forall equities : list CanonicalEquity,
     exists d, DataProvider.load_market_cap_distribution equities = Py.Ok d) /\
  (forall equities : list CanonicalEquity,
     exists d, DataProvider.load_completeness_distribution equities = Py.Ok d) /\
  (forall equities : list CanonicalEquity,
     forallb (fun eq => negb (has_positive_market_cap eq)) equities = true ->
     DataProvider.load_market_cap_distribution equities
     = Py.Ok empty_market_caps) /\
  DataProvider.load_market_cap_distribution [] = Py.Ok empty_market_caps /\
  (forall equities : list CanonicalEquity,
     DataProvider._compute_completeness_scores equities = [] <-> equities = []) /\
  DataProvider.load_completeness_distribution [] = Py.Ok empty_completeness.
Proof.
  repeat match goal with |- _ /\ _ => split end; try reflexivity.
  - intros equities. unfold DataProvider.load_market_cap_distribution.
    destruct (DataProvider._extract_market_caps equities) as [|v vs] eqn:E.
    + cbn. eauto.
    + destruct (median_defined (v :: vs)) as [m ->]; [discriminate|].
      destruct (mean_defined (v :: vs)) as [a ->]; [discriminate|].
      cbn. eauto.
  - intros equities. unfold DataProvider.load_completeness_distribution.
    destruct (DataProvider._compute_completeness_scores equities)
      as [|v vs] eqn:E.
    + cbn. eauto.
    + destruct (median_defined (map inject_Z (v :: vs))) as [m ->];
        [discriminate|].
      destruct (mean_defined (map inject_Z (v :: vs))) as [a ->];
        [discriminate|].
      cbn. eauto.
  - intros equities H. apply extract_market_caps_nil in H.
    unfold DataProvider.load_market_cap_distribution. now rewrite H.
  - intros equities. unfold DataProvider._compute_completeness_scores.
    destruct equities; cbn [map]; split; congruence.
Qed.

(** C10 at a set whose only record reports no market cap. *)
Lemma distributions_defined_without_values_witness :
  DataProvider.load_market_cap_distribution [priced (dec 100 0) None None]
  = Py.Ok empty_market_caps.
Proof.
  destruct distributions_defined_without_values as (_ & _ & _ & _ & H & _).
  apply H. reflexivity.
Defined.

(** ** Formatting falls back to [str] *)

(** Whatever the text runtime, an int too large for a float makes the
    formatters raise [OverflowError], which their handler does not catch. *)
Lemma formatting_raises_on_huge_int :
  forall (float_of_str : string -> option Float64.float)
         (format_fixed : bool -> Z -> Float64.float -> option string)
         (str_of_float : Float64.float -> string) (str_of_int : Z -> string),
    ~ never_fails float_of_str format_fixed str_of_float str_of_int.
Proof.
  intros float_of_str format_fixed str_of_float str_of_int H.
  destruct (H (Formatters.VInt (10 ^ 400)) 2) as [[s Hs] _].
  unfold Formatters.fmt_number, Formatters.float_ in Hs.
  replace (Float64.of_int (10 ^ 400)) with (@Py.Raise Float64.float Py.OverflowError)
    in Hs by (vm_compute; reflexivity).
  cbn in Hs. discriminate.
Qed.

Section FormatterFallback.

Import Formatters.

Variable float_of_str : string -> option Float64.float.
Variable format_fixed : bool -> Z -> Float64.float -> option string.
Variable str_of_float : Float64.float -> string.
Variable str_of_int : Z -> string.






End FormatterFallback.


(** ** Markets of a venue list *)

Section VenueMarkets.

Import TradingView.

Lemma fromkeys_first_occurrences (xs : list string) :
  fromkeys xs = first_occurrences xs.
Proof. reflexivity. Qed.

Lemma mic_map_get_In (key market : string) (table : list (string * string)) :
  mic_map_get key table = Some market -> In market (map snd table).
Proof.
  induction table as [|[k v] table IH]; cbn [mic_map_get map snd];
    [discriminate|].
  destruct (String.eqb k key).
  - intros [= <-]. now left.
  - intros H. right. now apply IH.
Qed.

Lemma table_market_nonempty (key market : string) :
  mic_map_get key _mic_to_tv_market_map = Some market ->
  String.eqb market "" = false.
Proof.
  intros H. apply mic_map_get_In in H.
  assert (Hall : forallb (fun m => negb (String.eqb m ""))
                         (map snd _mic_to_tv_market_map) = true)
    by reflexivity.
  rewrite forallb_forall in Hall. specialize (Hall market H).
  now destruct (String.eqb market "").
Qed.

Lemma truthy_markets (codes : list string) :
  flat_map (fun o : option string =>
              match o with
              | Some v => if String.eqb v "" then [] else [v]
              | None => []
              end)
           (map (fun code => mic_map_get code _mic_to_tv_market_map) codes)
  = markets_of codes.
Proof.
  unfold markets_of. induction codes as [|code codes IH]; [reflexivity|].
  cbn [map flat_map]. rewrite IH. f_equal.
  destruct (mic_map_get code _mic_to_tv_market_map) as [m|] eqn:E;
    [|reflexivity].
  now rewrite (table_market_nonempty code m E).
Qed.

Lemma mics_to_tv_markets_of (m : string) :
  _mics_to_tv_markets (Some m)
  = first_occurrences (markets_of (map strip (split "," m))).
Proof.
  unfold _mics_to_tv_markets.
  rewrite <- truthy_markets, map_map, fromkeys_first_occurrences.
  destruct m; reflexivity.
Qed.

Lemma mics_to_venue_markets (mics : option string) :
  _mics_to_tv_markets mics = venue_markets mics.
Proof.
  destruct mics as [m|]; [apply mics_to_tv_markets_of | reflexivity].
Qed.

End VenueMarkets.

(** ** Symbol resolution *)

Section Resolution.

Import TradingView.

Lemma try_scan_answer (field query operation : string) (markets : list string)
    (w : world) :
  let request := _build_scan_request field query operation markets in
  _try_scan field query operation markets w
  = (scan_answer (respond w (List.length (sent w)) request),
     {| respond := respond w; sent := sent w ++ [request] |}).
Proof.
  unfold _try_scan, httpx_post, scan_answer, Py.try_except_exception. cbn.
  destruct (read_top_result _); reflexivity.
Qed.

Lemma answer_at_cons (respond : nat -> json -> post_outcome) (first : nat)
    (request : json) (requests : list json) (i : nat) :
  answer_at respond first (request :: requests) (S i)
  = answer_at respond (S first) requests i.
Proof.
  unfold answer_at. cbn [nth_error]. now rewrite Nat.add_succ_r.
Qed.

(** The requests the loop posts for the searches whose query is not
    empty. *)
Let posted (searches : list (string * string * string))
    (markets : list string) : list json :=
  map (fun '(field, query, operation) =>
         _build_scan_request field query operation markets)
      (filter (fun '(_, query, _) => negb (String.eqb query "")) searches).

Lemma resolve_loop_fallback (searches : list (string * string * string))
    (markets : list string) (symbol : string) (w : world) :
  exists k,
    let '(result, w') := resolve_loop searches markets symbol w in
    respond w' = respond w /\
    sent w' = sent w ++ firstn k (posted searches markets) /\
    fallback_outcome (respond w) (List.length (sent w))
      (posted searches markets) (JStr symbol) k result.
Proof.
  revert w. induction searches as [|[[field query] operation] rest IH];
    intros w.
  - exists 0%nat. cbn. repeat split.
    + now rewrite app_nil_r.
    + lia.
    + intros i Hi. lia.
    + right. repeat split. intros i Hi. lia.
  - cbn [resolve_loop]. unfold posted. cbn [filter].
    destruct (String.eqb query "") eqn:Eq; cbn [negb map].
    + apply IH.
    + rewrite try_scan_answer. cbv zeta.
      set (request := _build_scan_request field query operation markets).
      destruct (scan_answer (respond w (List.length (sent w)) request))
        as [r|] eqn:Ea.
      * exists 1%nat. cbn [respond sent firstn]. repeat split.
        -- cbn. lia.
        -- intros i Hi. lia.
        -- left. exists 0%nat. split; [reflexivity|].
           unfold answer_at. cbn [nth_error]. now rewrite Nat.add_0_r.
      * specialize (IH {| respond := respond w; sent := sent w ++ [request] |}).
        destruct IH as [k IH]. exists (S k).
        destruct (resolve_loop rest markets symbol _) as [result w'].
        cbn [respond sent] in IH. rewrite length_app in IH.
        cbn [List.length] in IH. rewrite Nat.add_1_r in IH.
        destruct IH as (Hr & Hs & Hk & Hnone & Hlast).
        fold (posted rest markets).
        repeat split.
        -- exact Hr.
        -- rewrite Hs. cbn [firstn]. now rewrite <- app_assoc.
        -- cbn. lia.
        -- intros [|i] Hi.
           ++ unfold answer_at. cbn [nth_error]. now rewrite Nat.add_0_r.
           ++ rewrite answer_at_cons. apply Hnone. lia.
        -- destruct Hlast as [(j & -> & Hj) | (-> & Hall & ->)].
           ++ left. exists (S j). split; [reflexivity|].
              now rewrite answer_at_cons.
           ++ right. repeat split. intros [|i] Hi.
              ** unfold answer_at. cbn [nth_error]. now rewrite Nat.add_0_r.
              ** rewrite answer_at_cons. apply Hall. lia.
Qed.

Lemma build_scan_request_searches (field query operation : string)
    (markets : list string) :
  searches (_build_scan_request field query operation markets)
    field operation query markets.
Proof. eexists. split; [reflexivity|]. split; reflexivity. Qed.

(** The requests of the body are those of the three tiers. *)
Lemma posted_tier_requests (symbol equity_name : string)
    (markets : list string) :
  tier_requests symbol equity_name markets
    (posted [ ("name", symbol, "equal");
              ("description", equity_name, "match");
              ("name", symbol, "match") ] markets).
Proof.
  unfold tier_requests, tiers, posted. cbn [filter].
  destruct (String.eqb symbol ""), (String.eqb equity_name "");
    cbn [negb map];
    repeat (constructor; [apply build_scan_request_searches|]); constructor.
Qed.

Lemma tier_requests_length (symbol equity_name : string)
    (markets : list string) (requests : list json) :
  tier_requests symbol equity_name markets requests ->
  (List.length requests <= 3)%nat.
Proof.
  intros H. apply Forall2_length in H. rewrite H.
  apply (filter_length_le _ (tiers symbol equity_name)).
Qed.

Lemma key_eqb_eq (a b : cache_key) : key_eqb a b = true <-> a = b.
Proof.
  destruct a as [[sa na] ma], b as [[sb nb] mb]. unfold key_eqb.
  rewrite !andb_true_iff, !String.eqb_eq.
  destruct ma as [x|], mb as [y|]; rewrite ?String.eqb_eq.
  - split; [intros [[-> ->] ->]; reflexivity | intros [= -> -> ->]; auto].
  - split; [intros [_ H]; discriminate | discriminate].
  - split; [intros [_ H]; discriminate | discriminate].
  - split; [intros [[-> ->] _]; reflexivity | intros [= -> ->]; auto].
Qed.

Lemma key_eqb_refl (a : cache_key) : key_eqb a a = true.
Proof. now apply key_eqb_eq. Qed.

Lemma cache_get_find (key : cache_key) (store : cache) :
  cache_get key store
  = option_map snd (find (fun p => key_eqb (fst p) key) store).
Proof.
  induction store as [|[k entry] store IH]; [reflexivity|].
  cbn [cache_get find fst]. destruct (key_eqb k key); [reflexivity | exact IH].
Qed.

Lemma remembered_get (key : cache_key) (now : Q) (store : cache) :
  remembered key now store
  = match cache_get key store with
    | Some entry =>
        if Qle_bool (expires entry) now then None else Some (cached entry)
    | None => None
    end.
Proof.
  unfold remembered. rewrite cache_get_find.
  now destruct (find _ store) as [[k entry]|].
Qed.

Lemma remembered_set_same (key : cache_key) (entry : cache_entry) (t : Q)
    (store : cache) :
  remembered key t (cache_set key entry store)
  = if Qle_bool (expires entry) t then None else Some (cached entry).
Proof.
  unfold remembered, cache_set. cbn [find fst]. now rewrite key_eqb_refl.
Qed.

Lemma remembered_set_other (key key' : cache_key) (entry : cache_entry)
    (t : Q) (store : cache) :
  key' <> key ->
  remembered key' t (cache_set key entry store) = remembered key' t store.
Proof.
  intros Hne. unfold remembered, cache_set. cbn [find fst].
  destruct (key_eqb key key') eqn:E.
  { apply key_eqb_eq in E. congruence. }
  f_equal. clear E.
  induction store as [|[k e] store IH]; [reflexivity|].
  cbn [filter find fst]. destruct (key_eqb k key) eqn:Ek; cbn [negb find fst].
  - apply key_eqb_eq in Ek. subst k.
    destruct (key_eqb key key') eqn:E; [|exact IH].
    apply key_eqb_eq in E. congruence.
  - destruct (key_eqb k key'); [reflexivity | exact IH].
Qed.

Lemma resolved_later (respond : nat -> json -> post_outcome) (seen seen' : nat)
    (key : cache_key) (value : json) :
  (seen <= seen')%nat ->
  resolved respond seen key value -> resolved respond seen' key value.
Proof.
  destruct key as [[symbol equity_name] mics].
  intros Hle (requests & first & k & Ht & Hk & Hf).
  exists requests, first, k. split; [exact Ht|]. split; [lia | exact Hf].
Qed.

(** The body: a fallback over the tiers' requests, posted from the current
    state of the service. *)
Lemma resolve_body_outcome (symbol equity_name : string)
    (mics : option string) (w : world) :
  exists requests k,
    tier_requests symbol equity_name (venue_markets mics) requests /\
    let '(result, w') := resolve_tv_symbol_body symbol equity_name mics w in
    respond w' = respond w /\
    sent w' = sent w ++ firstn k requests /\
    fallback_outcome (respond w) (List.length (sent w)) requests
      (JStr symbol) k result.
Proof.
  unfold resolve_tv_symbol_body. rewrite mics_to_venue_markets.
  destruct (resolve_loop_fallback
              [ ("name", symbol, "equal");
                ("description", equity_name, "match");
                ("name", symbol, "match") ]
              (venue_markets mics) symbol w) as [k Hk].
  eexists. exists k. split; [apply posted_tier_requests | exact Hk].
Qed.

(** C8.  Resolution is cached for an hour under the ticker, the company
    name and the venue codes.  A call whose arguments the cache remembers
    posts nothing and returns the remembered value.  Any other call posts at
    most three scanner requests: those of the tiers (exact match on the
    ticker, fuzzy match on the company name, fuzzy match on the ticker, each
    within the markets of the venue codes) whose query is not empty, in that
    order, stopping at the first that has a result.  It returns that result,
    and the ticker itself when every tier was tried without result, and
    the cache remembers the value for the next 3600 seconds, leaving the
    other keys as they were.  So from a cache whose values were all resolved
    by the fallback, every value returned is one.  A tier whose request fails
    in transport, whose response has an error status or a body that does
    not decode, or whose reading raises anything at all, has no result. *)
Theorem resolution_is_three_tier_fallback
    (symbol equity_name : string) (mics : option string)
    (now : Q) (store : cache) (w : world) :
  let key := (symbol, equity_name, mics) in
  (exists requests : list json,
     tier_requests symbol equity_name (venue_markets mics) requests /\
     (List.length requests <= 3)%nat /\
     let '(result, store', w') :=
       resolve_tv_symbol symbol equity_name mics now store w in
     respond w' = respond w /\
     match remembered key now store with
     | Some value => result = value /\ store' = store /\ sent w' = sent w
     | None =>
         (exists k,
            sent w' = sent w ++ firstn k requests /\
            fallback_outcome (respond w) (List.length (sent w)) requests
              (JStr symbol) k result) /\
         (forall t : Q,
            remembered key t store'
            = if Qle_bool (now + 3600) t then None else Some result) /\
         (forall (key' : cache_key) (t : Q),
            key' <> key ->
            remembered key' t store' = remembered key' t store)
     end /\
     (cache_sound (respond w) (List.length (sent w)) store ->
      resolved (respond w') (List.length (sent w')) key result /\
      cache_sound (respond w') (List.length (sent w')) store')) /\
  scan_answer Failed = None /\
  (forall resp, is_success resp = false ->
                scan_answer (Responded resp) = None) /\
  (forall resp, body resp = None -> scan_answer (Responded resp) = None) /\
  (forall outcome e, read_top_result outcome = Py.Raise e ->
                     scan_answer outcome = None) /\
  (forall members rows row s,
     lookup "data" members = Some (JArr (JObj row :: rows)) ->
     lookup "s" row = Some s ->
     scan_answer (Responded {| is_success := true;
                               body := Some (JObj members) |})
     = not_null s).
Proof.
  cbv zeta. repeat match goal with |- _ /\ _ => split end.
  - destruct (resolve_body_outcome symbol equity_name mics w)
      as (requests & k & Ht & Hbody).
    exists requests. split; [exact Ht|].
    split; [exact (tier_requests_length _ _ _ _ Ht)|].
    unfold resolve_tv_symbol. rewrite remembered_get.
    destruct (resolve_tv_symbol_body symbol equity_name mics w)
      as [result w'] eqn:Eb.
    destruct Hbody as (Hr & Hs & Hf).
    set (key := (symbol, equity_name, mics)).
    set (entry := {| cached := result; expires := (now + ttl)%Q |}).
    assert (Hmiss :
      respond w' = respond w /\
      ((exists k0,
          sent w' = sent w ++ firstn k0 requests /\
          fallback_outcome (respond w) (List.length (sent w)) requests
            (JStr symbol) k0 result) /\
       (forall t : Q,
          remembered key t (cache_set key entry store)
          = if Qle_bool (now + 3600) t then None else Some result) /\
       (forall (key' : cache_key) (t : Q),
          key' <> key ->
          remembered key' t (cache_set key entry store)
          = remembered key' t store)) /\
      (cache_sound (respond w) (List.length (sent w)) store ->
       resolved (respond w') (List.length (sent w')) key result /\
       cache_sound (respond w') (List.length (sent w'))
         (cache_set key entry store))).
    { split; [exact Hr|]. split.
      - split; [now exists k|]. split.
        + intros t. apply remembered_set_same.
        + intros key' t Hne. now apply remembered_set_other.
      - intros Hsound.
        assert (Hres : resolved (respond w') (List.length (sent w')) key result).
        { exists requests, (List.length (sent w)), k.
          split; [exact Ht|]. split.
          - rewrite Hs, length_app, length_firstn.
            destruct Hf as (Hk & _). lia.
          - rewrite Hr. exact Hf. }
        split; [exact Hres|].
        intros key' entry' [Hin | Hin].
        + injection Hin as <- <-. exact Hres.
        + apply filter_In in Hin. destruct Hin as [Hin _].
          rewrite Hr. apply (resolved_later _ (List.length (sent w))).
          * rewrite Hs, length_app. lia.
          * now apply Hsound. }
    destruct (cache_get key store) as [found|] eqn:Eg; [|exact Hmiss].
    destruct (Qle_bool (expires found) now) eqn:Ex; [exact Hmiss|].
    split; [reflexivity|]. split; [now repeat split|].
    intros Hsound. split; [|exact Hsound].
    rewrite cache_get_find in Eg.
    destruct (find (fun p => key_eqb (fst p) key) store) as [[k0 e0]|] eqn:Ef;
      [|discriminate].
    injection Eg as ->. apply find_some in Ef. destruct Ef as [Hin Hk].
    cbn [fst] in Hk. apply key_eqb_eq in Hk. subst k0.
    now apply Hsound.
  - reflexivity.
  - intros resp H. unfold scan_answer, read_top_result. now rewrite H.
  - intros resp H. unfold scan_answer, read_top_result. rewrite H.
    now destruct (is_success resp).
  - intros outcome e H. unfold scan_answer. now rewrite H.
  - intros members rows row s Hd Hs. unfold scan_answer, read_top_result.
    cbn. rewrite Hd. cbn. now rewrite Hs.
Qed.

End Resolution.

(** Two calls for the same equity, ten minutes apart, against a service
    that drops the first request: the first call falls through to the
    second tier, the second call is answered from the cache and posts
    nothing. *)
Example resolve_second_tier :
  let '(first, store, w') :=
    TradingView.resolve_tv_symbol "AAPL" "Apple Inc" (Some "XNAS") 0 []
      flaky_service in
  let '(second, _, w'') :=
    TradingView.resolve_tv_symbol "AAPL" "Apple Inc" (Some "XNAS") (600 # 1)
      store w' in
  first = TradingView.JStr "NASDAQ:AAPL" /\
  TradingView.sent w'
  = [ TradingView._build_scan_request "name" "AAPL" "equal" ["america"];
      TradingView._build_scan_request "description" "Apple Inc" "match"
        ["america"] ] /\
  second = first /\
  TradingView.sent w'' = TradingView.sent w'.
Proof. vm_compute. repeat split; reflexivity. Qed.

Example resolve_total_failure :
  fst (fst (TradingView.resolve_tv_symbol "AAPL" ""%string None 0 []
              {| TradingView.respond := fun _ _ => TradingView.Failed;
                 TradingView.sent := [] |}))
  = TradingView.JStr "AAPL".
Proof. reflexivity. Qed.

(** ** Sorting *)

Section InsertionSort.

Context {A : Type} (le : A -> A -> bool).

Hypothesis le_total : forall a b, le a b = false -> le b a = true.
Hypothesis le_trans : forall a b c, le a b = true -> le b c = true -> le a c = true.


Lemma insert_by_perm (x : A) (l : list A) :
  Permutation (Py.insert_by le x l) (x :: l).
Proof.
  induction l as [|y l IH]; cbn; [reflexivity|].
  destruct (le x y); [reflexivity|].
  rewrite IH. apply perm_swap.
Qed.

Lemma fold_insert_perm (l : list A) :
  Permutation (fold_right (Py.insert_by le) [] l) l.
Proof.
  induction l as [|x l IH]; cbn; [reflexivity|].
  rewrite insert_by_perm. now apply perm_skip.
Qed.



End InsertionSort.




Lemma sorted_perm {A : Type} (key : A -> Q) (l : list A) :
  Permutation (Py.sorted key l) l.
Proof. apply fold_insert_perm. Qed.


Lemma sorted_reverse_perm {A : Type} (key : A -> Q) (l : list A) :
  Permutation (Py.sorted_reverse key l) l.
Proof. apply fold_insert_perm. Qed.


(** ** Grouping by sector *)

Lemma existsb_eqb_In (x : string) (l : list string) :
  existsb (String.eqb x) l = true <-> In x l.
Proof.
  rewrite existsb_exists. split.
  - intros (y & Hy & E). apply String.eqb_eq in E. now subst.
  - intros H. exists x. split; [exact H | apply String.eqb_refl].
Qed.

Lemma first_occurrences_snoc (xs : list string) (x : string) :
  first_occurrences (xs ++ [x])
  = if existsb (String.eqb x) (first_occurrences xs)
    then first_occurrences xs else first_occurrences xs ++ [x].
Proof. unfold first_occurrences. now rewrite fold_left_app. Qed.

Lemma first_occurrences_In (xs : list string) (x : string) :
  In x (first_occurrences xs) <-> In x xs.
Proof.
  induction xs as [|y xs IH] using rev_ind; [reflexivity|].
  rewrite first_occurrences_snoc, in_app_iff.
  destruct (existsb (String.eqb y) (first_occurrences xs)) eqn:E.
  - apply existsb_eqb_In in E. cbn. rewrite IH. split; [tauto|].
    intros [H | [<- | []]]; [exact H | now apply IH].
  - rewrite in_app_iff, IH. reflexivity.
Qed.

Lemma first_occurrences_NoDup (xs : list string) : NoDup (first_occurrences xs).
Proof.
  induction xs as [|y xs IH] using rev_ind; [constructor|].
  rewrite first_occurrences_snoc.
  destruct (existsb (String.eqb y) (first_occurrences xs)) eqn:E; [exact IH|].
  apply NoDup_app; [exact IH | repeat constructor; intros [] |].
  intros x Hx [<- | []].
  apply existsb_eqb_In in Hx. congruence.
Qed.

Lemma setdefault_append_keys {A : Type} (key : string) (x : A)
    (g : string -> list A) (keys : list string) :
  NoDup keys ->
  DataProvider.setdefault_append key x (map (fun s => (s, g s)) keys)
  = if existsb (String.eqb key) keys
    then map (fun s => (s, if String.eqb s key then g s ++ [x] else g s)) keys
    else map (fun s => (s, g s)) keys ++ [(key, [x])].
Proof.
  induction 1 as [|k keys Hk Hnd IH]; cbn; [reflexivity|].
  rewrite (String.eqb_sym key k).
  destruct (String.eqb_spec k key) as [->|Hne]; cbn.
  - f_equal. apply map_ext_in. intros s Hs.
    destruct (String.eqb_spec s key) as [->|_]; [contradiction | reflexivity].
  - rewrite IH. destruct (existsb (String.eqb key) keys); reflexivity.
Qed.

Lemma members_snoc (s : string) (equities : list CanonicalEquity)
    (eq : CanonicalEquity) :
  members s (equities ++ [eq])
  = members s equities ++ (if in_sector s eq then [eq] else []).
Proof. unfold members. rewrite filter_app. reflexivity. Qed.

Lemma members_nil (s : string) (equities : list CanonicalEquity) :
  ~ In s (sectors_of equities) -> members s equities = [].
Proof.
  unfold members, sectors_of, in_sector.
  induction equities as [|eq equities IH]; cbn; [reflexivity|].
  intros Hn. rewrite in_app_iff in Hn.
  destruct (sector (financials eq)) as [s'|]; [|apply IH; tauto].
  destruct (String.eqb_spec s' s) as [->|_]; [cbn in Hn; tauto|].
  apply IH. tauto.
Qed.

Lemma sectors_of_snoc (equities : list CanonicalEquity) (eq : CanonicalEquity) :
  sectors_of (equities ++ [eq])
  = sectors_of equities ++ match sector (financials eq) with
                           | Some s => [s]
                           | None => []
                           end.
Proof.
  unfold sectors_of. rewrite flat_map_app. cbn [flat_map].
  now rewrite app_nil_r.
Qed.

(** The dict [_group_by_sector] builds: one entry per distinct sector, in
    order of first occurrence, holding the records of that sector. *)
Lemma group_by_sector_members (equities : list CanonicalEquity) :
  DataProvider._group_by_sector equities
  = map (fun s => (s, members s equities))
        (first_occurrences (sectors_of equities)).
Proof.
  unfold DataProvider._group_by_sector.
  induction equities as [|eq equities IH] using rev_ind; [reflexivity|].
  rewrite fold_left_app. cbn [fold_left]. rewrite IH. clear IH.
  rewrite sectors_of_snoc.
  destruct (sector (financials eq)) as [k|] eqn:Ek.
  - rewrite first_occurrences_snoc.
    rewrite setdefault_append_keys by apply first_occurrences_NoDup.
    destruct (existsb (String.eqb k) (first_occurrences (sectors_of equities)))
      eqn:E.
    + apply map_ext. intros s. rewrite members_snoc. unfold in_sector.
      rewrite Ek, (String.eqb_sym k s).
      destruct (String.eqb s k); [reflexivity | now rewrite app_nil_r].
    + rewrite map_app. cbn [map]. f_equal.
      * apply map_ext_in. intros s Hs. rewrite members_snoc. unfold in_sector.
        rewrite Ek. destruct (String.eqb_spec k s) as [<-|_];
          [|now rewrite app_nil_r].
        apply existsb_eqb_In in Hs. congruence.
      * rewrite members_snoc. unfold in_sector at 1.
        rewrite Ek, String.eqb_refl, members_nil; [reflexivity|].
        intros Hin. apply first_occurrences_In, existsb_eqb_In in Hin.
        congruence.
  - rewrite app_nil_r. apply map_ext. intros s.
    rewrite members_snoc. unfold in_sector. rewrite Ek. now rewrite app_nil_r.
Qed.

Lemma sectors_of_In (equities : list CanonicalEquity) (s : string) :
  In s (sectors_of equities) <->
  exists eq, In eq equities /\ sector (financials eq) = Some s.
Proof.
  unfold sectors_of. rewrite in_flat_map. split.
  - intros (eq & Hin & Hs). exists eq. split; [exact Hin|].
    destruct (sector (financials eq)) as [s'|]; [|destruct Hs].
    destruct Hs as [-> | []]. reflexivity.
  - intros (eq & Hin & Hs). exists eq. split; [exact Hin|].
    rewrite Hs. now left.
Qed.

(** ** Lists read by index *)

Lemma getitem_nth {A : Type} (l : list A) (i : nat) (d : A) :
  (i < List.length l)%nat -> Py.getitem l i = Py.Ok (nth i l d).
Proof.
  intros Hi. unfold Py.getitem.
  destruct (nth_error l i) as [x|] eqn:E.
  - now rewrite (nth_error_nth l i d E).
  - apply nth_error_None in E. lia.
Qed.

Lemma traverse_ok {A B : Type} (f : A -> Py.pyresult B) (g : A -> B)
    (l : list A) :
  (forall x, In x l -> f x = Py.Ok (g x)) ->
  Py.traverse f l = Py.Ok (map g l).
Proof.
  induction l as [|x l IH]; intros H; cbn; [reflexivity|].
  rewrite (H x (or_introl eq_refl)). cbn.
  rewrite IH by (intros y Hy; apply H; now right). reflexivity.
Qed.

Lemma map_by_index {A B : Type} (f : A -> B) (l : list A) (d : A) :
  map f l = map (fun i => f (nth i l d)) (seq 0 (List.length l)).
Proof.
  induction l as [|x l IH]; cbn; [reflexivity|].
  f_equal. rewrite <- seq_shift, map_map. exact IH.
Qed.

Lemma combine_with_image {A B : Type} (f : A -> B) (l : list A) :
  combine l (map f l) = map (fun x => (x, f x)) l.
Proof. induction l as [|x l IH]; cbn; [reflexivity|]. now rewrite IH. Qed.

Lemma pairs_of_graph {A B : Type} (f : A -> B) (l : list (A * B)) :
  Forall (fun p => snd p = f (fst p)) l ->
  l = map (fun x => (x, f x)) (map fst l).
Proof.
  induction 1 as [|[a b] l Hp Hl IH]; cbn; [reflexivity|].
  cbn in Hp. subst b. now rewrite <- IH.
Qed.


(** ** Sums of percentages do not depend on the order *)

Lemma fsum_from (xs : list Q) (acc : Q) :
  (fold_left Qplus xs acc == acc + fold_right Qplus 0 xs)%Q.
Proof.
  revert acc. induction xs as [|x xs IH]; intros acc; cbn.
  - now rewrite Qplus_0_r.
  - rewrite IH. now rewrite Qplus_assoc.
Qed.

Lemma fsum_fold_right (xs : list Q) :
  (Py.fsum xs == fold_right Qplus 0 xs)%Q.
Proof. unfold Py.fsum. rewrite fsum_from. apply Qplus_0_l. Qed.



(** ** The sector heatmap *)

Section SectorHeatmap.

Local Opaque heatmap_fields.

Variable equities : list CanonicalEquity.

Lemma sector_row_cells (s : string) :
  sector_row equities s = map (cell equities s) (seq 0 (List.length heatmap_fields)).
Proof.
  unfold sector_row, DataProvider._sector_coverage_row.
  rewrite (map_by_index _ heatmap_fields ("", "")).
  apply map_ext. intros c. unfold cell, heatmap_attr.
  now destruct (nth c heatmap_fields ("", "")).
Qed.

Lemma sector_row_length (s : string) :
  List.length (sector_row equities s) = List.length heatmap_fields.
Proof. rewrite sector_row_cells. now rewrite length_map, length_seq. Qed.

Lemma sector_row_nth (s : string) (c : nat) :
  (c < List.length heatmap_fields)%nat -> nth c (sector_row equities s) 0%Q = cell equities s c.
Proof.
  intros Hc. rewrite sector_row_cells.
  rewrite (nth_indep _ 0%Q (cell equities s 0))
    by now rewrite length_map, length_seq.
  rewrite (map_nth (cell equities s)). now rewrite seq_nth.
Qed.

Lemma enumerate_graph {B : Type} (f : nat -> B) (n : nat) :
  Py.enumerate (map f (seq 0 n)) = map (fun c => (c, f c)) (seq 0 n).
Proof.
  unfold Py.enumerate. rewrite length_map, length_seq.
  apply combine_with_image.
Qed.

Lemma ranked_columns_perm (f : nat -> Q) (n : nat) :
  Permutation (ranked_columns f n) (seq 0 n).
Proof.
  unfold ranked_columns. rewrite sorted_reverse_perm, enumerate_graph.
  rewrite map_map. cbn [fst]. now rewrite map_id.
Qed.


Lemma rank_columns_rows (shown : list string) :
  DataProvider._rank_columns_by_coverage (map (sector_row equities) shown)
  = Py.Ok (ranked_columns (field_mean equities shown)
             (match shown with [] => 0 | _ => List.length heatmap_fields end)).
Proof.
  destruct shown as [|s0 shown']; [reflexivity|].
  set (shown := s0 :: shown').
  unfold DataProvider._rank_columns_by_coverage.
  change (map (sector_row equities) shown)
    with (sector_row equities s0 :: map (sector_row equities) shown').
  cbv iota beta. rewrite sector_row_length.
  change (sector_row equities s0 :: map (sector_row equities) shown')
    with (map (sector_row equities) shown).
  rewrite (traverse_ok _ (field_mean equities shown)); [reflexivity|].
  intros c Hc. apply in_seq in Hc.
  unfold DataProvider.column_mean.
  rewrite (traverse_ok _ (fun row => nth c row 0%Q)).
  - cbn [Py.bind]. unfold field_mean. rewrite map_map.
    unfold Py.len. rewrite length_map. do 3 f_equal.
    apply map_ext. intros s. apply sector_row_nth. lia.
  - intros row Hrow. apply in_map_iff in Hrow. destruct Hrow as (s & <- & _).
    apply getitem_nth. rewrite sector_row_length. lia.
Qed.

Lemma ranked_rows_graph :
  Py.sorted (fun p => DataProvider._mean (snd p))
    (map (fun s => (s, sector_row equities s))
         (first_occurrences (sectors_of equities)))
  = map (fun s => (s, sector_row equities s)) (ranked_sectors equities).
Proof.
  unfold ranked_sectors. apply pairs_of_graph.
  apply (Permutation_Forall (Permutation_sym (sorted_perm _ _))).
  apply Forall_map. now apply Forall_forall.
Qed.

Lemma shown_columns_in_range (c : nat) :
  In c (shown_columns equities) -> (c < List.length heatmap_fields)%nat.
Proof.
  intros Hc. unfold shown_columns in Hc.
  apply (Permutation_in _ (ranked_columns_perm _ _)) in Hc.
  apply in_seq in Hc. destruct (ranked_sectors equities); lia.
Qed.

Lemma load_sector_field_coverage_value :
  DataProvider.load_sector_field_coverage equities
  = Py.Ok {| sectors := ranked_sectors equities;
             fields := map heatmap_label (shown_columns equities);
             percentages :=
               map (fun s => map (cell equities s) (shown_columns equities))
                   (ranked_sectors equities) |}.
Proof.
  unfold DataProvider.load_sector_field_coverage.
  rewrite group_by_sector_members, map_map.
  rewrite (map_ext _ (fun s => (s, sector_row equities s)))
    by (intros s; unfold sector_row; reflexivity).
  rewrite ranked_rows_graph, !map_map. cbn [fst snd]. rewrite map_id.
  rewrite rank_columns_rows. fold (shown_columns equities). cbn [Py.bind].
  rewrite (traverse_ok _ heatmap_label).
  2:{ intros c Hc. apply shown_columns_in_range in Hc.
      rewrite (getitem_nth heatmap_fields c ("", "") Hc). reflexivity. }
  cbn [Py.bind].
  rewrite (traverse_ok _ (fun row => map (fun c => nth c row 0%Q) (shown_columns equities))).
  2:{ intros row Hrow. apply in_map_iff in Hrow. destruct Hrow as (s & <- & _).
      apply traverse_ok. intros c Hc. apply getitem_nth.
      rewrite sector_row_length. now apply shown_columns_in_range. }
  cbn [Py.bind]. rewrite map_map. do 2 f_equal.
  apply map_ext. intros s. apply map_ext_in. intros c Hc.
  apply sector_row_nth. now apply shown_columns_in_range.
Qed.

Lemma ranked_sectors_perm :
  Permutation (ranked_sectors equities) (first_occurrences (sectors_of equities)).
Proof.
  unfold ranked_sectors. rewrite sorted_perm, map_map. cbn [fst].
  now rewrite map_id.
Qed.



End SectorHeatmap.


(** A set with two sectors: the better covered one comes last, and the
    fields it reports come first. *)
Example heatmap_of_two_sectors :
  let tech := equity_of (priced_financials (dec 100 0) (dec 5 9) None None
                           None None None None (Some "Tech")) in
  let bank := equity_of (priced_financials None (dec 7 9) None None
                           None None None None (Some "Banks")) in
  let unclassified := priced (dec 1 0) None None in
  match DataProvider.load_sector_field_coverage [tech; unclassified; bank] with
  | Py.Ok r =>
      sectors r = ["Banks"; "Tech"] /\
      firstn 3 (fields r) = ["Market Cap"; "Last Price"; "MICs"] /\
      map (firstn 3) (percentages r) = [[100; 0; 0]; [100; 100; 0]]%Q
  | Py.Raise _ => False
  end.
Proof. vm_compute. repeat split. Qed.

(** * Further properties of the code *)

(** ** Findings *)

Lemma count_if_perm {A : Type} (p : A -> bool) (l l' : list A) :
  Permutation l l' -> Py.count_if p l = Py.count_if p l'.
Proof.
  intros H. rewrite !count_if_filter. f_equal.
  apply Permutation_length. clear -H.
  induction H as [|x l l' _ IH|x y l|l l' l'' _ IH1 _ IH2]; cbn.
  - reflexivity.
  - destruct (p x); [now apply perm_skip | exact IH].
  - destruct (p x), (p y); try reflexivity. apply perm_swap.
  - now transitivity (filter p l').
Qed.

Lemma count_if_app {A : Type} (p : A -> bool) (l l' : list A) :
  Py.count_if p (l ++ l') = Py.count_if p l + Py.count_if p l'.
Proof. rewrite !count_if_filter, filter_app, length_app. lia. Qed.

Lemma len_perm {A : Type} (l l' : list A) :
  Permutation l l' -> Py.len l = Py.len l'.
Proof. intros H. unfold Py.len. now rewrite (Permutation_length H). Qed.

(** X1.  The three check batteries do not depend on the order of the
    records: on a permutation of the equity list every finding is the
    same. *)
Theorem findings_independent_of_order (equities equities' : list CanonicalEquity) :
  Permutation equities equities' ->
  run_cross_field_checks equities = run_cross_field_checks equities' /\
  run_ratio_checks equities = run_ratio_checks equities' /\
  run_plausibility_checks equities = run_plausibility_checks equities'.
Proof.
  intros H.
  unfold run_cross_field_checks, run_ratio_checks, run_plausibility_checks,
    _finding.
  rewrite (len_perm _ _ H).
  repeat split;
    repeat (apply (f_equal2 cons);
            [f_equal; now apply count_if_perm|]); reflexivity.
Qed.

(** X1 at two records swapped. *)
Lemma findings_independent_of_order_witness :
  run_plausibility_checks
    [priced (dec 100 0) (dec 50 0) (dec 90 0); held (dec 6 (-1)) (dec 5 (-1))]
  = run_plausibility_checks
      [held (dec 6 (-1)) (dec 5 (-1)); priced (dec 100 0) (dec 50 0) (dec 90 0)].
Proof.
  apply (findings_independent_of_order
           [priced (dec 100 0) (dec 50 0) (dec 90 0);
            held (dec 6 (-1)) (dec 5 (-1))]
           [held (dec 6 (-1)) (dec 5 (-1));
            priced (dec 100 0) (dec 50 0) (dec 90 0)]).
  apply perm_swap.
Defined.

Lemma count_if_exclusive {A : Type} (p q : A -> bool) (l : list A) :
  (forall x, p x = true -> q x = false) ->
  Py.count_if p l + Py.count_if q l <= Py.len l.
Proof.
  intros H. rewrite !count_if_filter. unfold Py.len.
  induction l as [|x l IH]; cbn; [lia|].
  specialize (H x). destruct (p x), (q x); cbn [List.length];
    first [lia | discriminate (H eq_refl)].
Qed.

Lemma count_if_four_way {A : Type} (p1 p2 p3 p4 : A -> bool) (l : list A) :
  (forall x, Z.b2z (p1 x) + Z.b2z (p2 x) + Z.b2z (p3 x) + Z.b2z (p4 x) = 1) ->
  Py.count_if p1 l + Py.count_if p2 l + Py.count_if p3 l + Py.count_if p4 l
  = Py.len l.
Proof.
  intros H. rewrite !count_if_filter. unfold Py.len.
  induction l as [|x l IH]; cbn; [lia|].
  specialize (H x). destruct (p1 x), (p2 x), (p3 x), (p4 x);
    cbn [List.length Z.b2z] in *; lia.
Qed.

Lemma has_field_last_price (eq : CanonicalEquity) :
  has_field eq "last_price" = is_not_none (last_price (financials eq)).
Proof. unfold has_field. cbn. unfold dec_attr. apply is_not_none_map. Qed.

Lemma has_field_market_cap (eq : CanonicalEquity) :
  has_field eq "market_cap" = is_not_none (market_cap (financials eq)).
Proof. unfold has_field. cbn. unfold dec_attr. apply is_not_none_map. Qed.

Lemma has_field_min (eq : CanonicalEquity) :
  has_field eq "fifty_two_week_min"
  = is_not_none (fifty_two_week_min (financials eq)).
Proof. unfold has_field. cbn. unfold dec_attr. apply is_not_none_map. Qed.

Lemma has_field_max (eq : CanonicalEquity) :
  has_field eq "fifty_two_week_max"
  = is_not_none (fifty_two_week_max (financials eq)).
Proof. unfold has_field. cbn. unfold dec_attr. apply is_not_none_map. Qed.

(** X2.  The three price / market-cap findings count disjoint sets of
    records, and together with the records that report both fields they
    account for every record exactly once. *)
Theorem price_and_market_cap_findings_partition
    (equities : list CanonicalEquity) :
  let findings := run_cross_field_checks equities in
  count_named "Price recorded without market cap" findings
  + count_named "Market cap recorded without price" findings
  + count_named "Price and market cap both missing" findings
  + priced_and_capitalised equities
  = Py.len equities.
Proof.
  cbv zeta. unfold run_cross_field_checks, _finding, priced_and_capitalised.
  cbn [count_named description finding_count String.eqb Ascii.eqb Bool.eqb].
  rewrite <- count_if_filter.
  apply count_if_four_way. intros eq.
  rewrite has_field_last_price, has_field_market_cap.
  destruct (last_price (financials eq)), (market_cap (financials eq));
    reflexivity.
Qed.

Lemma count_if_implies {A : Type} (p q : A -> bool) (l : list A) :
  (forall x, p x = true -> q x = true) ->
  Py.count_if p l <= Py.count_if q l.
Proof.
  intros H. rewrite !count_if_filter.
  induction l as [|x l IH]; cbn [filter]; [lia|].
  specialize (H x). destruct (p x), (q x); cbn [List.length];
    first [lia | discriminate (H eq_refl)].
Qed.

(** X3.  "Partial 52-week range" counts exactly the records that have one
    52-week bound and not the other.  The two range checks that need both
    bounds count only records that have both, so no record is counted as a
    partial range and by one of them: the records with one bound, those with
    both and those with none account for every record once, and the
    partial-range count plus the inverted-range count, or plus the
    price-outside-range count, stays within the number of records. *)
Theorem partial_range_excludes_range_checks (equities : list CanonicalEquity) :
  let partial :=
    count_named "Partial 52-week range" (run_cross_field_checks equities) in
  let plausibility := run_plausibility_checks equities in
  partial = populated (bounds_present 1) equities /\
  count_named "52-week min exceeds max" plausibility
    <= populated (bounds_present 2) equities /\
  count_named "Price outside 52-week range" plausibility
    <= populated (bounds_present 2) equities /\
  populated (bounds_present 0) equities + populated (bounds_present 1) equities
    + populated (bounds_present 2) equities = Py.len equities /\
  partial + count_named "52-week min exceeds max" plausibility
    <= Py.len equities /\
  partial + count_named "Price outside 52-week range" plausibility
    <= Py.len equities.
Proof.
  cbv zeta. unfold run_cross_field_checks, run_plausibility_checks, _finding.
  cbn [count_named description finding_count String.eqb Ascii.eqb Bool.eqb].
  unfold populated. rewrite <- !count_if_populated.
  assert (H1 : Py.count_if
                 (fun eq => negb (Bool.eqb (has_field eq "fifty_two_week_min")
                                           (has_field eq "fifty_two_week_max")))
                 equities
               = Py.count_if (bounds_present 1) equities).
  { apply count_if_ext. intros eq. rewrite has_field_min, has_field_max.
    unfold bounds_present.
    destruct (fifty_two_week_min (financials eq)),
             (fifty_two_week_max (financials eq)); reflexivity. }
  assert (H2 : Py.count_if _has_inverted_range equities
               <= Py.count_if (bounds_present 2) equities).
  { apply count_if_implies. intros eq.
    unfold _has_inverted_range, bounds_present.
    destruct (fifty_two_week_min (financials eq)),
             (fifty_two_week_max (financials eq)); cbn; congruence. }
  assert (H3 : Py.count_if _price_outside_range equities
               <= Py.count_if (bounds_present 2) equities).
  { apply count_if_implies. intros eq.
    unfold _price_outside_range, bounds_present.
    destruct (last_price (financials eq)),
             (fifty_two_week_min (financials eq)),
             (fifty_two_week_max (financials eq)); cbn; congruence. }
  assert (H4 : Py.count_if (bounds_present 0) equities
               + Py.count_if (bounds_present 1) equities
               + Py.count_if (bounds_present 2) equities = Py.len equities).
  { pose proof (count_if_four_way (bounds_present 0) (bounds_present 1)
                  (bounds_present 2) (fun _ => false) equities) as H.
    replace (Py.count_if (fun _ : CanonicalEquity => false) equities) with 0
      in H by (rewrite count_if_filter; clear;
               induction equities; [reflexivity | assumption]).
    rewrite <- H; [lia|]. intros eq. unfold bounds_present.
    destruct (fifty_two_week_min (financials eq)),
             (fifty_two_week_max (financials eq)); reflexivity. }
  pose proof (count_if_bounds (bounds_present 0) equities) as H0.
  rewrite H1. repeat split; try assumption; lia.
Qed.

(** ** Completeness scores and coverage *)

Lemma count_if_cons {A : Type} (p : A -> bool) (x : A) (l : list A) :
  Py.count_if p (x :: l) = Z.b2z (p x) + Py.count_if p l.
Proof.
  rewrite !count_if_filter. cbn [filter].
  destruct (p x); cbn [List.length Z.b2z]; lia.
Qed.

Lemma total_of_add {A : Type} (g h : A -> Z) (l : list A) :
  total_of (map (fun y => g y + h y) l)
  = total_of (map g l) + total_of (map h l).
Proof.
  unfold total_of. induction l as [|y l IH]; cbn; [reflexivity|].
  rewrite IH. lia.
Qed.

Lemma count_if_total_of {A : Type} (p : A -> bool) (l : list A) :
  Py.count_if p l = total_of (map (fun y => Z.b2z (p y)) l).
Proof.
  induction l as [|y l IH]; [reflexivity|].
  rewrite count_if_cons, IH. reflexivity.
Qed.

(** Counting the pairs that satisfy [p] by rows or by columns gives the
    same number. *)
Lemma sum_count_exchange {A B : Type} (p : A -> B -> bool)
    (xs : list A) (ys : list B) :
  Py.sum (map (fun x => Py.count_if (p x) ys) xs)
  = Py.sum (map (fun y => Py.count_if (fun x => p x y) xs) ys).
Proof.
  rewrite !py_sum_total_of.
  induction xs as [|x xs IH]; cbn [map].
  - unfold total_of. induction ys as [|y ys IHy]; cbn; [reflexivity|].
    exact IHy.
  - change (total_of (Py.count_if (p x) ys
                      :: map (fun x0 => Py.count_if (p x0) ys) xs))
      with (Py.count_if (p x) ys
            + total_of (map (fun x0 => Py.count_if (p x0) ys) xs)).
    rewrite IH, count_if_total_of, <- total_of_add.
    f_equal. apply map_ext. intros y. now rewrite count_if_cons.
Qed.

Lemma count_populated_financials (equities : list CanonicalEquity)
    (attr : string) :
  DataProvider._count_populated equities "financials" attr
  = Py.count_if (fun eq => has_field eq attr) equities.
Proof. reflexivity. Qed.

Lemma coverage_counts (equities : list CanonicalEquity) (group : string)
    (fields : list (string * string)) :
  map count (DataProvider._compute_coverage equities group fields)
  = map (fun f => DataProvider._count_populated equities group (fst f)) fields.
Proof.
  unfold DataProvider._compute_coverage. rewrite map_map.
  apply map_ext. now intros [attr label].
Qed.

Lemma coverage_totals (equities : list CanonicalEquity) (group : string)
    (fields : list (string * string)) :
  map total (DataProvider._compute_coverage equities group fields)
  = map (fun _ => Py.len equities) fields.
Proof.
  unfold DataProvider._compute_coverage. rewrite map_map.
  apply map_ext. now intros [attr label].
Qed.

Lemma completeness_scores_by_field (equities : list CanonicalEquity) :
  DataProvider._compute_completeness_scores equities
  = map (fun eq => Py.count_if (fun f => has_field eq (fst f)) financial_fields)
        equities.
Proof.
  unfold DataProvider._compute_completeness_scores,
    DataProvider._count_equity_fields.
  apply map_ext. intros eq. apply count_if_ext. now intros [attr label].
Qed.

Lemma completeness_scores_length (equities : list CanonicalEquity) :
  List.length (DataProvider._compute_completeness_scores equities)
  = List.length equities.
Proof.
  rewrite completeness_scores_by_field. apply length_map.
Qed.

Lemma completeness_scores_range (equities : list CanonicalEquity) :
  Forall (fun score => 0 <= score <= 31)
         (DataProvider._compute_completeness_scores equities).
Proof.
  rewrite completeness_scores_by_field.
  apply Forall_map, Forall_forall. intros eq _.
  apply (count_if_bounds (fun f => has_field eq (fst f)) financial_fields).
Qed.

(** X4.  There is one completeness score per record, and every score lies
    between 0 and 31. *)
Theorem completeness_scores_bounded (equities : list CanonicalEquity) :
  List.length (DataProvider._compute_completeness_scores equities)
  = List.length equities /\
  Forall (fun score => 0 <= score <= 31)
         (DataProvider._compute_completeness_scores equities).
Proof.
  split.
  - apply completeness_scores_length.
  - apply completeness_scores_range.
Qed.

Lemma scores_total_is_counts_total (equities : list CanonicalEquity) :
  Py.sum (DataProvider._compute_completeness_scores equities)
  = Py.sum (map (fun f => DataProvider._count_populated equities "financials"
                            (fst f)) financial_fields).
Proof.
  rewrite completeness_scores_by_field.
  rewrite (sum_count_exchange (fun eq f => has_field eq (fst f))).
  f_equal.
Qed.

(** X5.  The completeness scores and the financial coverage count the same
    populated cells, by record and by field: the scores of all records add
    up to the coverage counts of all 31 fields. *)
Theorem completeness_scores_sum_to_coverage_counts
    (equities : list CanonicalEquity) :
  Py.sum (DataProvider._compute_completeness_scores equities)
  = Py.sum (map count (DataProvider._compute_coverage equities "financials"
                         financial_fields)).
Proof. rewrite coverage_counts. apply scores_total_is_counts_total. Qed.

(** ** Overall coverage of a computed report *)

Lemma total_of_const {A : Type} (n : Z) (l : list A) :
  total_of (map (fun _ => n) l) = Py.len l * n.
Proof.
  unfold total_of, Py.len. induction l as [|x l IH]; cbn [map fold_right].
  - reflexivity.
  - rewrite IH. cbn [List.length]. lia.
Qed.

Lemma total_of_bounds {A : Type} (g : A -> Z) (n : Z) (l : list A) :
  (forall x, 0 <= g x <= n) ->
  0 <= total_of (map g l) <= total_of (map (fun _ => n) l).
Proof.
  intros H. unfold total_of. induction l as [|x l IH]; cbn; [lia|].
  specialize (H x). lia.
Qed.

(** X6.  The summary figure of a computed report lies in [[0, 100]]:
    whatever the group and the field list, the overall coverage of the
    statistics [_compute_coverage] produces is a percentage. *)
Theorem overall_coverage_of_report_in_range
    (equities : list CanonicalEquity) (group : string)
    (fields : list (string * string)) :
  (0 <= Renderers._overall_coverage
          (DataProvider._compute_coverage equities group fields) <= 100)%Q.
Proof.
  unfold Renderers._overall_coverage.
  rewrite !py_sum_total_of, coverage_counts, coverage_totals.
  apply percentage_in_range.
  apply (total_of_bounds
           (fun f => DataProvider._count_populated equities group (fst f))).
  intros f. apply count_if_bounds.
Qed.

Lemma fsum_cons (x : Q) (xs : list Q) : (Py.fsum (x :: xs) == x + Py.fsum xs)%Q.
Proof. rewrite !fsum_fold_right. reflexivity. Qed.

Lemma fsum_scaled (k : Q) (cs : list Z) :
  (Py.fsum (map (fun c => inject_Z c * k) cs) == inject_Z (total_of cs) * k)%Q.
Proof.
  induction cs as [|c cs IH].
  - cbn. ring.
  - cbn [map]. rewrite fsum_cons, IH.
    change (total_of (c :: cs)) with (c + total_of cs).
    rewrite inject_Z_plus. ring.
Qed.

Lemma fsum_map_ext {A : Type} (g h : A -> Q) (l : list A) :
  (forall x, g x == h x)%Q ->
  (Py.fsum (map g l) == Py.fsum (map h l))%Q.
Proof.
  intros H. induction l as [|x l IH]; [reflexivity|].
  cbn [map]. now rewrite !fsum_cons, IH, H.
Qed.

Lemma fsum_zeros {A : Type} (l : list A) :
  (Py.fsum (map (fun _ => 0) l) == 0)%Q.
Proof.
  induction l as [|x l IH]; [reflexivity|].
  cbn [map]. rewrite fsum_cons, IH. ring.
Qed.

Lemma inject_Z_nonzero (n : Z) : n <> 0 -> ~ (inject_Z n == 0)%Q.
Proof.
  intros Hn H. apply Hn. apply (proj1 (inject_Z_injective n 0)). exact H.
Qed.

Lemma mean_nonempty (values : list Q) :
  values <> [] ->
  DataProvider._mean values
  = (Py.fsum values / inject_Z (Py.len values))%Q.
Proof. destruct values; [congruence | reflexivity]. Qed.

(** ** The market-cap distribution *)







(** ** Histograms *)

Lemma Qle_bool_false (a b : Q) : Qle_bool a b = false -> (b < a)%Q.
Proof.
  intros H. destruct (Qlt_le_dec b a) as [Hlt|Hle]; [exact Hlt|].
  apply Qle_bool_iff in Hle. congruence.
Qed.

Ltac by_comparisons :=
  repeat match goal with
         | |- context [Qle_bool ?a ?b] =>
             let E := fresh "E" in
             destruct (Qle_bool a b) eqn:E;
             [apply Qle_bool_iff in E | apply Qle_bool_false in E]
         end;
  cbn; first [reflexivity | exfalso; lra].

Lemma sum_of_indicators {A : Type} (p : A -> bool) (l : list A) :
  Py.sum (map (fun x => Z.b2z (p x)) l) = Py.count_if p l.
Proof. now rewrite py_sum_total_of, count_if_total_of. Qed.

(** X10 PLACEHOLDER *)

Lemma scores_equal_to (v : Z) (n : nat) :
  Py.count_if (fun s => v =? s) (map Z.of_nat (seq 0 n))
  = Z.b2z ((0 <=? v) && (v <? Z.of_nat n)).
Proof.
  induction n as [|n IH].
  - cbn [seq map Z.of_nat]. change (Py.count_if _ []) with 0.
    destruct (Z.leb_spec 0 v), (Z.ltb_spec v 0); cbn; lia.
  - rewrite seq_S, map_app, count_if_app, IH. cbn [map Nat.add].
    rewrite count_if_cons. change (Py.count_if _ []) with 0.
    rewrite Nat2Z.inj_succ.
    destruct (Z.leb_spec 0 v), (Z.ltb_spec v (Z.of_nat n)),
      (Z.ltb_spec v (Z.succ (Z.of_nat n))), (Z.eqb_spec v (Z.of_nat n));
      cbn [andb Z.b2z]; lia.
Qed.

Lemma score_counts_total (values : list Z) :
  Py.sum (snd (Charts._count_per_score values))
  = Py.count_if (fun v => (0 <=? v) && (v <? 32)) values.
Proof.
  unfold Charts._count_per_score. cbn [snd].
  rewrite (sum_count_exchange (fun s v => v =? s)).
  rewrite (map_ext _ (fun v => Z.b2z ((0 <=? v) && (v <? 32))))
    by (intros v; apply (scores_equal_to v 32)).
  apply sum_of_indicators.
Qed.

Lemma completeness_score_counts_total (equities : list CanonicalEquity) :
  Py.sum (snd (Charts._count_per_score
                 (DataProvider._compute_completeness_scores equities)))
  = Py.len equities.
Proof.
  rewrite score_counts_total, count_if_filter.
  pose proof (completeness_scores_length equities) as Hlen.
  pose proof (completeness_scores_range equities) as Hb.
  unfold Py.len. rewrite <- Hlen. do 2 f_equal. apply forallb_filter_id.
  apply forallb_forall. rewrite Forall_forall in Hb.
  intros v Hv. specialize (Hb v Hv). apply andb_true_iff.
  split; [apply Z.leb_le | apply Z.ltb_lt]; lia.
Qed.

(** X11.  The completeness histogram has one bar per score from 0 to 31 and
    counts every value in that range once: the bar counts add up to the
    number of values between 0 and 31, hence, on the completeness scores,
    to the number of equities. *)
Theorem score_histogram_counts_every_equity :
  (forall values : list Z,
     fst (Charts._count_per_score values) = map Z.of_nat (seq 0 32) /\
     Py.sum (snd (Charts._count_per_score values))
     = Py.count_if (fun v => (0 <=? v) && (v <? 32)) values) /\
  (forall equities : list CanonicalEquity,
     Py.sum (snd (Charts._count_per_score
                    (DataProvider._compute_completeness_scores equities)))
     = Py.len equities).
Proof.
  split.
  - intros values. split; [reflexivity | apply score_counts_total].
  - exact completeness_score_counts_total.
Qed.





(** ** Shape and range of the sector heatmap *)

Lemma ranked_sector_has_members (equities : list CanonicalEquity) (s : string) :
  In s (ranked_sectors equities) -> members s equities <> [].
Proof.
  intros Hs.
  apply (Permutation_in _ (ranked_sectors_perm equities)) in Hs.
  apply first_occurrences_In, sectors_of_In in Hs.
  destruct Hs as (eq & Hin & Hsec).
  assert (Hm : In eq (members s equities)).
  { unfold members. apply filter_In. split; [exact Hin|].
    unfold in_sector. rewrite Hsec. apply String.eqb_refl. }
  intros E. rewrite E in Hm. destruct Hm.
Qed.

(** X13.  The heatmap matrix is rectangular and made of percentages: it
    has one row per sector and one cell per field shown, every cell lies in
    [[0, 100]], and every sector shown has at least one record (so no row
    is the all-zero row of an empty group). *)
Theorem heatmap_matrix_well_formed (equities : list CanonicalEquity) :
  exists r,
    DataProvider.load_sector_field_coverage equities = Py.Ok r /\
    List.length (percentages r) = List.length (sectors r) /\
    Forall (fun row => List.length row = List.length (fields r) /\
                       Forall (fun pct => 0 <= pct <= 100)%Q row)
           (percentages r) /\
    Forall (fun s => members s equities <> []) (sectors r).
Proof.
  eexists. split; [apply load_sector_field_coverage_value|].
  cbn [sectors fields percentages].
  split; [now rewrite length_map|]. split.
  - apply Forall_map, Forall_forall. intros s _.
    split; [now rewrite !length_map|].
    apply Forall_map, Forall_forall. intros c _.
    apply field_coverage_pct_ok.
  - apply Forall_forall. intros s Hs. now apply ranked_sector_has_members.
Qed.

(** ** Ties in the ranking *)

Section StableInsertion.

Context {A : Type} (le : A -> A -> bool) (P : A -> bool).

(** An element that satisfies [P] is never moved past another one that
    does. *)
Hypothesis passes_only_others :
  forall x y, P x = true -> le x y = false -> P y = false.



End StableInsertion.







(** ** The coverage report *)

Lemma distinct_from {A B : Type} (eqb : A -> A -> bool) (eqb' : B -> B -> bool)
    (f : A -> B) (xs seen : list A) :
  (forall a b, eqb' (f a) (f b) = eqb a b) ->
  fold_left (fun seen x => if existsb (eqb' x) seen then seen else seen ++ [x])
            (map f xs) (map f seen)
  = map f (fold_left (fun seen x => if existsb (eqb x) seen then seen
                                    else seen ++ [x]) xs seen).
Proof.
  intros H. revert seen. induction xs as [|x xs IH]; intros seen;
    [reflexivity|].
  cbn [map fold_left].
  assert (E : existsb (eqb' (f x)) (map f seen) = existsb (eqb x) seen).
  { clear IH. induction seen as [|y seen IHs]; [reflexivity|].
    cbn [map existsb]. now rewrite H, IHs. }
  rewrite E. destruct (existsb (eqb x) seen); [apply IH|].
  rewrite <- IH. now rewrite map_app.
Qed.

Lemma distinct_map {A B : Type} (eqb : A -> A -> bool) (eqb' : B -> B -> bool)
    (f : A -> B) (xs : list A) :
  (forall a b, eqb' (f a) (f b) = eqb a b) ->
  Py.distinct eqb' (map f xs) = map f (Py.distinct eqb xs).
Proof. intros H. apply (distinct_from eqb eqb' f xs [] H). Qed.

Lemma distinct_length_from {A : Type} (eqb : A -> A -> bool) (xs seen : list A) :
  (List.length
     (fold_left (fun seen x => if existsb (eqb x) seen then seen
                               else seen ++ [x]) xs seen)
   <= List.length seen + List.length xs)%nat.
Proof.
  revert seen. induction xs as [|x xs IH]; intros seen; cbn [fold_left].
  - cbn. lia.
  - destruct (existsb (eqb x) seen).
    + specialize (IH seen). cbn [List.length]. lia.
    + specialize (IH (seen ++ [x])). rewrite length_app in IH.
      cbn [List.length] in *. lia.
Qed.

Lemma distinct_length {A : Type} (eqb : A -> A -> bool) (xs : list A) :
  (List.length (Py.distinct eqb xs) <= List.length xs)%nat.
Proof. apply (distinct_length_from eqb xs []). Qed.

(** The values of a list of optional fields, one per record that has
    one. *)
Lemma present_values_length {A B : Type} (p : A -> option B) (l : list A) :
  (List.length (flat_map (fun x => match p x with
                                   | Some v => [v]
                                   | None => []
                                   end) l)
   <= List.length l)%nat.
Proof.
  induction l as [|x l IH]; cbn [flat_map]; [cbn; lia|].
  rewrite length_app. destruct (p x); cbn [List.length]; lia.
Qed.

Lemma count_distinct_strings (equities : list CanonicalEquity) (attr : string)
    (field : EquityFinancials -> option string) :
  (forall f, getattr_or_none financials_attrs f attr
             = option_map PyStr (field f)) ->
  DataProvider._count_distinct equities attr
  = Py.Ok (Py.len (first_occurrences
                     (flat_map (fun eq => match field (financials eq) with
                                          | Some s => [s]
                                          | None => []
                                          end) equities))).
Proof.
  intros H. unfold DataProvider._count_distinct.
  set (strings := flat_map (fun eq => match field (financials eq) with
                                      | Some s => [s]
                                      | None => []
                                      end) equities).
  assert (E : flat_map
                (fun eq =>
                   match getattr_or_none financials_attrs (financials eq) attr
                   with
                   | Some v => [v]
                   | None => []
                   end) equities
              = map PyStr strings).
  { unfold strings. clear strings.
    induction equities as [|eq equities IH]; [reflexivity|].
    cbn [flat_map]. rewrite map_app, IH, H.
    now destruct (field (financials eq)). }
  rewrite E.
  rewrite (traverse_ok _ (fun v => v))
    by (intros v Hv; apply in_map_iff in Hv;
        destruct Hv as (s & <- & _); reflexivity).
  cbn [Py.bind]. rewrite map_id.
  rewrite (distinct_map String.eqb DataProvider.pyobj_eqb PyStr)
    by reflexivity.
  unfold Py.len. rewrite length_map. reflexivity.
Qed.

(** X15.  The coverage report is always produced.  Its number of distinct
    sectors is the number of rows of the sector heatmap; its distinct
    sectors, distinct industries and snapshots are each at most the number
    of equities; its snapshot date is that of the first record, and [None]
    on the empty set. *)
Theorem coverage_report_totals (equities : list CanonicalEquity) :
  exists report heatmap,
    DataProvider.load_coverage_report equities = Py.Ok report /\
    DataProvider.load_sector_field_coverage equities = Py.Ok heatmap /\
    distinct_sectors report = Py.len (sectors heatmap) /\
    total_equities report = Py.len equities /\
    0 <= distinct_sectors report <= total_equities report /\
    0 <= distinct_industries report <= total_equities report /\
    0 <= total_snapshots report <= total_equities report /\
    report_snapshot_date report
    = match equities with
      | first :: _ => snapshot_date first
      | [] => None
      end.
Proof.
  unfold DataProvider.load_coverage_report.
  rewrite (count_distinct_strings equities "sector" sector) by reflexivity.
  rewrite (count_distinct_strings equities "industry" industry) by reflexivity.
  cbn [Py.bind]. eexists. eexists.
  split; [reflexivity|].
  split; [apply load_sector_field_coverage_value|].
  cbn [distinct_sectors total_equities distinct_industries total_snapshots
       report_snapshot_date sectors].
  fold (sectors_of equities).
  split.
  { unfold Py.len. f_equal. symmetry.
    apply Permutation_length, ranked_sectors_perm. }
  split; [reflexivity|].
  assert (Hb : forall (B : Type) (p : CanonicalEquity -> option B)
                      (eqb : B -> B -> bool),
             0 <= Py.len (Py.distinct eqb
                            (flat_map (fun eq => match p eq with
                                                 | Some v => [v]
                                                 | None => []
                                                 end) equities))
             <= Py.len equities).
  { intros B p eqb. unfold Py.len.
    pose proof (distinct_length eqb
                  (flat_map (fun eq => match p eq with
                                       | Some v => [v]
                                       | None => []
                                       end) equities)).
    pose proof (present_values_length p equities). lia. }
  split; [apply (Hb string (fun eq => sector (financials eq)) String.eqb)|].
  split; [apply (Hb string (fun eq => industry (financials eq)) String.eqb)|].
  split; [apply (Hb string snapshot_date String.eqb) | reflexivity].
Qed.

(** ** Markets of a venue list *)

Section Markets.

Import TradingView.

(** X16.  The markets derived from a venue string are distinct, and they
    are exactly the table images of its comma-separated codes, stripped of
    surrounding white space; codes the table does not know are dropped, and
    an absent or empty string gives no market. *)
Theorem markets_are_distinct_table_images :
  _mics_to_tv_markets None = [] /\
  _mics_to_tv_markets (Some "") = [] /\
  (forall m : string,
     NoDup (_mics_to_tv_markets (Some m)) /\
     (forall market,
        In market (_mics_to_tv_markets (Some m)) <->
        exists code, In code (split "," m) /\
                     mic_map_get (strip code) _mic_to_tv_market_map
                     = Some market)).
Proof.
  split; [reflexivity|]. split; [reflexivity|].
  intros m. rewrite mics_to_tv_markets_of.
  split; [apply first_occurrences_NoDup|].
  intros market. rewrite first_occurrences_In. unfold markets_of.
  rewrite in_flat_map. split.
  - intros (c & Hc & Hm). apply in_map_iff in Hc.
    destruct Hc as (code & <- & Hcode). exists code. split; [exact Hcode|].
    destruct (mic_map_get (strip code) _mic_to_tv_market_map) as [v|];
      [|destruct Hm].
    destruct Hm as [-> | []]. reflexivity.
  - intros (code & Hcode & Hm). exists (strip code).
    split; [now apply in_map|]. rewrite Hm. now left.
Qed.

(** *** Joining and splitting *)

Lemma split_nonempty (sep : ascii) (s : string) : split sep s <> [].
Proof.
  destruct s as [|c s]; cbn [split]; [discriminate|].
  destruct (Ascii.eqb c sep); [discriminate|].
  destruct (split sep s); discriminate.
Qed.

Lemma split_comma_free (s : string) :
  comma_free s = true -> split "," s = [s].
Proof.
  induction s as [|c s IH]; [reflexivity|].
  cbn [comma_free split]. intros H. apply andb_true_iff in H.
  destruct H as [Hc Hs]. apply negb_true_iff in Hc. rewrite Hc, (IH Hs).
  reflexivity.
Qed.

Lemma split_append_comma (a rest : string) :
  comma_free a = true ->
  split "," (String.append a (String "," rest)) = a :: split "," rest.
Proof.
  induction a as [|c a IH]; intros H.
  - cbn [String.append split]. rewrite Ascii.eqb_refl. reflexivity.
  - cbn [comma_free] in H. apply andb_true_iff in H. destruct H as [Hc Ha].
    apply negb_true_iff in Hc.
    cbn [String.append split]. rewrite Hc, (IH Ha). reflexivity.
Qed.

Lemma strip_leading_space (s : string) : strip (String " " s) = strip s.
Proof. reflexivity. Qed.

Lemma strip_split_leading_space (s : string) :
  map strip (split "," (String " " s)) = map strip (split "," s).
Proof.
  cbn [split]. change (Ascii.eqb " " ",") with false. cbv iota.
  destruct (split "," s) as [|p ps] eqn:E.
  - now apply split_nonempty in E.
  - cbn [map]. now rewrite strip_leading_space.
Qed.

Lemma strip_split_join (codes : list string) :
  codes <> [] -> Forall clean_code codes ->
  map strip (split "," (Py.join ", " codes)) = codes.
Proof.
  intros Hne Hclean. induction Hclean as [|c codes [Hc Hs] Hclean IH];
    [congruence|].
  destruct codes as [|c' codes].
  - cbn [Py.join]. rewrite (split_comma_free c Hc). cbn [map]. now rewrite Hs.
  - change (Py.join ", " (c :: c' :: codes))
      with (String.append c (String "," (String " "
              (Py.join ", " (c' :: codes))))).
    rewrite (split_append_comma _ _ Hc). cbn [map].
    rewrite Hs, strip_split_leading_space, IH by discriminate. reflexivity.
Qed.

End Markets.

(** X17.  The venue list survives its trip through the grid: the
    universe grid joins the venue codes of a record into one cell with
    [", "], and the markets the resolver derives from that cell are the
    distinct table images of the original codes, in order.  An empty list
    gives an empty cell and no market. *)
Theorem grid_mics_round_trip (codes : list string) :
  Forall clean_code codes ->
  TradingView._mics_to_tv_markets
    (cell_text (UniverseDataProvider._format_field "MICs"
                  (Some (UniverseDataProvider.VLeaf (PyList codes)))))
  = first_occurrences (markets_of codes).
Proof.
  intros Hclean. destruct codes as [|c codes]; [reflexivity|].
  unfold UniverseDataProvider._format_field. cbn [String.eqb Ascii.eqb Bool.eqb].
  cbv iota. cbn [cell_text].
  rewrite mics_to_tv_markets_of, strip_split_join;
    [reflexivity | discriminate | exact Hclean].
Qed.

(** X17 at a record listed on two American venues and one British. *)
Lemma grid_mics_round_trip_witness :
  TradingView._mics_to_tv_markets
    (cell_text (UniverseDataProvider._format_field "MICs"
                  (Some (UniverseDataProvider.VLeaf
                           (PyList ["XNYS"; "XNAS"; "XLON"])))))
  = ["america"; "uk"].
Proof.
  apply (grid_mics_round_trip ["XNYS"; "XNAS"; "XLON"]).
  repeat constructor.
Defined.

(** ** When a search has a result *)

Section ScanResult.

Import TradingView.

Lemma scan_answer_some (outcome : post_outcome) (r : json) :
  scan_answer outcome = Some r <->
  exists resp members rows row,
    outcome = Responded resp /\
    is_success resp = true /\
    body resp = Some (JObj members) /\
    lookup "data" members = Some (JArr (JObj row :: rows)) /\
    lookup "s" row = Some r /\
    r <> JNull.
Proof.
  split.
  - unfold scan_answer, read_top_result.
    destruct outcome as [|resp]; [discriminate|].
    destruct (is_success resp) eqn:Hok; cbn [negb]; [|discriminate].
    destruct (body resp) as [doc|] eqn:Hbody; [|discriminate].
    destruct doc as [| | | | |members]; try discriminate.
    cbn [get Py.bind].
    destruct (lookup "data" members) as [rows|] eqn:Hdata;
      cbn [Py.bind truthy]; [|discriminate].
    destruct rows as [|b|q|s|items|ms]; cbn [truthy first_item Py.bind].
    + discriminate.
    + destruct b; discriminate.
    + destruct (negb (Qeq_bool q 0)); discriminate.
    + destruct s; cbn; discriminate.
    + destruct items as [|row items]; [discriminate|].
      cbn [first_item Py.bind].
      destruct row as [| | | | |fields]; try discriminate.
      cbn [get Py.bind].
      destruct (lookup "s" fields) as [v|] eqn:Hs; cbn [Py.bind not_null];
        [|discriminate].
      intros H. exists resp, members, items, fields.
      repeat split; try assumption.
      * destruct v; try discriminate; now injection H as <-.
      * intros ->. destruct v; discriminate.
    + destruct ms; discriminate.
  - intros (resp & members & rows & row & -> & Hok & Hbody & Hdata & Hs & Hr).
    unfold scan_answer, read_top_result. rewrite Hok, Hbody.
    cbn [negb get Py.bind]. rewrite Hdata.
    cbn [truthy first_item get Py.bind]. rewrite Hs. cbn [Py.bind].
    destruct r; try reflexivity. congruence.
Qed.

(** X18.  A search has a result exactly when its request is answered by a
    successful response whose body decodes to an object, whose ["data"] is
    a non-empty array, whose first row is an object, and whose ["s"] is not
    null; the result is that value.  In every other case the search yields
    [None]; in all cases exactly one request, the one built from the search,
    is added to the requests sent. *)
Theorem try_scan_result (field query operation : string)
    (markets : list string) (w : world) :
  let request := _build_scan_request field query operation markets in
  sent (snd (_try_scan field query operation markets w)) = sent w ++ [request] /\
  forall r : json,
    fst (_try_scan field query operation markets w) = Some r <->
    exists resp members rows row,
      respond w (List.length (sent w)) request = Responded resp /\
      is_success resp = true /\
      body resp = Some (JObj members) /\
      lookup "data" members = Some (JArr (JObj row :: rows)) /\
      lookup "s" row = Some r /\
      r <> JNull.
Proof.
  cbv zeta. rewrite try_scan_answer. cbn [fst snd sent].
  split; [reflexivity|]. intros r. apply scan_answer_some.
Qed.

End ScanResult.

(** ** The 52-week range bar *)

(** X19 PLACEHOLDER *)

(** ** Analyst ratings *)

Ltac by_thresholds :=
  repeat match goal with
         | |- context [Qle_bool ?a ?b] =>
             let E := fresh "E" in
             destruct (Qle_bool a b) eqn:E;
             [apply Qle_bool_iff in E | apply Qle_bool_false in E]
         end.

(** X20.  A numeric rating always maps to one of the five labels, and the
    mapping is monotone: a higher number never gets a better label.  The
    bands are closed on the right: 1.5 is still a Strong Buy, 4.5 still a
    Sell. *)
Theorem numeric_rating_monotone (v1 v2 : Q) :
  (v1 <= v2)%Q ->
  let label v := AnalystRatings.label (AnalystRatings._match_numeric_rating v) in
  0 <= severity (label v1) <= severity (label v2) /\
  severity (label v2) <= 4 /\
  label (15 # 10)%Q = "Strong Buy" /\
  label (45 # 10)%Q = "Sell".
Proof.
  intros H. cbv zeta.
  unfold AnalystRatings._match_numeric_rating,
    AnalystRatings.numeric_thresholds.
  cbn [AnalystRatings.match_thresholds].
  split; [|split; [|split; reflexivity]].
  - by_thresholds; cbn; first [lia | exfalso; lra].
  - by_thresholds; cbn; lia.
Qed.

(** X20 at the ratings 2 and 4. *)
Lemma numeric_rating_monotone_witness :
  severity (AnalystRatings.label (AnalystRatings._match_numeric_rating 2))
  <= severity (AnalystRatings.label (AnalystRatings._match_numeric_rating 4)).
Proof.
  destruct (numeric_rating_monotone 2 4) as [[_ H] _]; [discriminate | exact H].
Defined.

(** [pattern in s] is inherited by the endings of the pattern. *)
Lemma prefix_contains (pattern s : string) :
  String.prefix pattern s = true -> AnalystRatings.contains pattern s = true.
Proof.
  intros H. destruct s; cbn [AnalystRatings.contains]; rewrite H; reflexivity.
Qed.

Lemma contains_tail (a : ascii) (pattern s : string) :
  AnalystRatings.contains (String a pattern) s = true ->
  AnalystRatings.contains pattern s = true.
Proof.
  induction s as [|c s IH]; [discriminate|].
  cbn [AnalystRatings.contains]. rewrite !orb_true_iff.
  intros [H | H]; right; [|now apply IH].
  apply prefix_contains. cbn [String.prefix] in H.
  destruct (Ascii.ascii_dec a c); [exact H | discriminate H].
Qed.

Lemma contains_suffix (before pattern s : string) :
  AnalystRatings.contains (before ++ pattern)%string s = true ->
  AnalystRatings.contains pattern s = true.
Proof.
  induction before as [|a before IH]; [trivial|].
  intros H. apply IH. exact (contains_tail _ _ _ H).
Qed.

(** X21.  The text patterns are tried in a fixed order, so a rating text
    that mentions "buy" is labelled Strong Buy or Buy whatever else it
    says; failing that, one that mentions "hold" or "neutral" is a Hold; a
    text that matches no pattern is shown unchanged, in grey.  The match
    ignores case and surrounding white space. *)
Theorem string_rating_precedence (value : string) :
  let lowered := AnalystRatings.lower (TradingView.strip value) in
  let mentions pattern := AnalystRatings.contains pattern lowered in
  let result := AnalystRatings.analyst_rating_label (AnalystRatings.RStr value) in
  (mentions "buy" = true ->
   AnalystRatings.label result = "Strong Buy"
   \/ AnalystRatings.label result = "Buy") /\
  (mentions "buy" = false ->
   mentions "hold" = true \/ mentions "neutral" = true ->
   AnalystRatings.label result = "Hold") /\
  (mentions "buy" = false -> mentions "hold" = false ->
   mentions "neutral" = false -> mentions "sell" = false ->
   mentions "underperform" = false ->
   result = {| AnalystRatings.label := value;
               AnalystRatings.color := "#808495" |}).
Proof.
  cbv zeta. unfold AnalystRatings.analyst_rating_label,
    AnalystRatings._match_string_rating, AnalystRatings.patterns.
  set (lowered := AnalystRatings.lower (TradingView.strip value)).
  cbn [AnalystRatings.match_patterns].
  split; [|split].
  - intros Hbuy. rewrite Hbuy.
    destruct (AnalystRatings.contains "strong buy" lowered); cbn; auto.
  - intros Hbuy Hhold. rewrite Hbuy.
    destruct (AnalystRatings.contains "strong buy" lowered) eqn:Hstrong.
    + apply (contains_suffix "strong " "buy") in Hstrong. congruence.
    + destruct Hhold as [H | H]; rewrite H; [reflexivity|].
      destruct (AnalystRatings.contains "hold" lowered); reflexivity.
  - intros Hbuy Hhold Hneutral Hsell Hunder.
    rewrite Hbuy, Hhold, Hneutral, Hsell, Hunder.
    destruct (AnalystRatings.contains "strong buy" lowered) eqn:Hstrong.
    { apply (contains_suffix "strong " "buy") in Hstrong. congruence. }
    destruct (AnalystRatings.contains "strong sell" lowered) eqn:Hss.
    { apply (contains_suffix "strong " "sell") in Hss. congruence. }
    reflexivity.
Qed.

(** X21 on a text that mentions both a sale and a purchase. *)
Lemma string_rating_precedence_witness :
  AnalystRatings.label
    (AnalystRatings.analyst_rating_label
       (AnalystRatings.RStr " Sell (was BUY) ")) = "Strong Buy"
  \/ AnalystRatings.label
       (AnalystRatings.analyst_rating_label
          (AnalystRatings.RStr " Sell (was BUY) ")) = "Buy".
Proof.
  exact (proj1 (string_rating_precedence " Sell (was BUY) ") eq_refl).
Defined.

(** ** The universe grid *)

(** X22.  The universe grid has one column for every field the coverage
    report measures, the seven identity fields followed by the 31
    financial ones, in the order of the report.  A cell of the row is
    empty exactly when the coverage report counts the field as missing,
    with one exception: an empty list of venues counts as populated in the
    report and shows as an empty cell in the grid. *)
Theorem grid_row_follows_coverage_fields (equity : CanonicalEquity) :
  let fields :=
    map (fun f => ("identity", fst f)) Fields.identity_fields
    ++ map (fun f => ("financials", fst f)) Fields.financial_fields in
  let row := UniverseDataProvider._equity_to_row equity in
  map fst row = UniverseColumns.DISPLAY_COLUMNS /\
  Forall2 (fun (field : string * string) (entry : string * option UniverseDataProvider.cell) =>
             snd entry = None <->
             getattr_group equity (fst field) (snd field) = None
             \/ (fst entry = "MICs" /\ mics (financials equity) = Some []))
          fields row.
Proof.
  cbv zeta. split.
  - unfold UniverseDataProvider._equity_to_row, UniverseColumns.DISPLAY_COLUMNS.
    rewrite map_map. apply map_ext. now intros [n p].
  - destruct equity as [[] [] date].
    match goal with
    | |- Forall2 ?p _ _ => set (P := p)
    end.
    cbv -[P PyDecimal.to_float Py.join].
    repeat first [apply Forall2_nil | apply Forall2_cons];
      subst P; cbv -[PyDecimal.to_float Py.join iff];
      repeat match goal with
             | |- context [match ?x with _ => _ end] => is_var x; destruct x
             end;
      (split; intros H;
       [ first [discriminate H | left; reflexivity
               | right; split; reflexivity]
       | first [reflexivity
               | destruct H as [H | [H1 H2]]; discriminate] ]).
Qed.
